(** * InteropServer.h: the QUIC interop HTTP server, application layer

    A shallow embedding of [src/tools/interopserver/InteropServer.h]:
    the fixed-size send buffer, the abort path of a request, the
    reference-counted connection with its event handler, and the start-up
    sequence of the session and of the listener.

    Conventions.
    - Fixed-width C integers are [Z] with the wrap-around written out.
    - The MsQuic API table is an external interface: every call through
      [MsQuic->...] is appended to a log, and whatever the transport
      answers (status codes, out-handles) is chosen by the environment.
    - Objects created with [new] live in a heap ([gmap]) indexed by their
      address; using an address after [delete] is undefined behaviour and
      is modelled by [None]. *)

From Stdlib Require Import ZArith Lia.
From stdpp Require Import gmap strings list.

Local Open Scope Z_scope.

(** ** Machine integers *)

(** An unsigned [bits]-wide integer keeps the low [bits] bits. *)
Definition wrap (bits x : Z) : Z := x mod 2 ^ bits.

Definition uint16 : Z -> Z := wrap 16.
Definition uint32 : Z -> Z := wrap 32.
Definition uint64 : Z -> Z := wrap 64.

(** Two's-complement reading of the low [bits] bits. *)
Definition wrap_signed (bits x : Z) : Z :=
  (x + 2 ^ (bits - 1)) mod 2 ^ bits - 2 ^ (bits - 1).

Definition in_unsigned (bits x : Z) : Prop := 0 <= x < 2 ^ bits.
Definition in_signed (bits x : Z) : Prop := - 2 ^ (bits - 1) <= x < 2 ^ (bits - 1).

(** ** Constants of the header *)

Definition DEFAULT_QUIC_HTTP_SERVER_PORT : Z := 4433.
Definition DEFAULT_QUIC_HTTP_SERVER_RETRY : bool := false.
Definition MAX_HTTP_REQUESTS_PER_CONNECTION : Z := 100.

(** [#define IO_SIZE 64 * 1024].  The macro carries no parentheses; at each
    of its three uses ([RawBuffer[IO_SIZE]], [== IO_SIZE], [< IO_SIZE]) the
    product binds tighter than the surrounding operator, so the text stands
    for the number. *)
Definition IO_SIZE : Z := 64 * 1024.

(** ** Raw memory *)

(** A byte of storage: [None] is a byte that was never written. *)
Abbreviation cell := (option Byte.byte).

(** [memcpy (dst + off, src, n)] on a destination object [dst].  Writing
    outside the destination object, or reading past the source, is undefined
    behaviour: [None]. *)
Definition memcpy (dst : list cell) (off : Z) (src : list Byte.byte) (n : Z)
  : option (list cell) :=
  if bool_decide (0 <= off /\ 0 <= n /\
                  off + n <= Z.of_nat (length dst) /\ n <= Z.of_nat (length src))
  then Some (take (Z.to_nat off) dst
             ++ (Some <$> take (Z.to_nat n) src)
             ++ drop (Z.to_nat (off + n)) dst)
  else None.

(** An array of [n] bytes that nothing was written to yet. *)
Definition unwritten (n : Z) : list cell := replicate (Z.to_nat n) None.
Arguments unwritten : simpl never.

(** ** Handles, addresses, status codes *)

(** [HQUIC]: an opaque handle owned by the transport. *)
Definition HQUIC : Type := Z.
(** The address of an object allocated with [new]. *)
Definition ptr : Type := positive.
Definition QUIC_STATUS : Type := Z.
(** [const QUIC_ADDR*]: opaque to this layer. *)
Definition QUIC_ADDR : Type := Z.

(** The five places where the header expands [EXIT_ON_FAILURE]. *)
Inductive Site : Type :=
| Site_SessionOpen
| Site_SetParam_PeerBidi
| Site_SetParam_PeerUnidi
| Site_ListenerOpen
| Site_ListenerStart.

(** First and last line of each expansion in InteropServer.h. *)
Definition Site_first_line (s : Site) : Z :=
  match s with
  | Site_SessionOpen => 211
  | Site_SetParam_PeerBidi => 222
  | Site_SetParam_PeerUnidi => 229
  | Site_ListenerOpen => 170
  | Site_ListenerStart => 176
  end.

Definition Site_last_line (s : Site) : Z :=
  match s with
  | Site_SessionOpen => 217
  | Site_SetParam_PeerBidi => 228
  | Site_SetParam_PeerUnidi => 235
  | Site_ListenerOpen => 175
  | Site_ListenerStart => 179
  end.

(** [#x]: the argument of the macro turned into a string, every run of
    white space between two tokens replaced by one blank. *)
Definition Site_text (s : Site) : string :=
  match s with
  | Site_SessionOpen =>
      "MsQuic->SessionOpen( Registration, AlpnBuffers, AlpnBufferCount, nullptr, &Session)"
  | Site_SetParam_PeerBidi =>
      "MsQuic->SetParam( Session, QUIC_PARAM_LEVEL_SESSION, QUIC_PARAM_SESSION_PEER_BIDI_STREAM_COUNT, sizeof(PeerBidiStreamCount), &PeerBidiStreamCount)"
  | Site_SetParam_PeerUnidi =>
      "MsQuic->SetParam( Session, QUIC_PARAM_LEVEL_SESSION, QUIC_PARAM_SESSION_PEER_UNIDI_STREAM_COUNT, sizeof(PeerUnidiStreamCount), &PeerUnidiStreamCount)"
  | Site_ListenerOpen =>
      "MsQuic->ListenerOpen( Session, QuicCallbackHandler, this, &QuicListener)"
  | Site_ListenerStart =>
      "MsQuic->ListenerStart( QuicListener, LocalAddress)"
  end.

(** ** What the header takes from the platform and from msquic.h

    None of these is defined in the header: the width of [long] (the type
    of the reference count and of the Interlocked operations), the status
    codes and the [QUIC_FAILED] test, the bit that marks a unidirectional
    stream, and what the preprocessor puts for [__FILE__] and [__LINE__]
    (for an invocation that spans several lines the line reported lies
    within the invocation). *)
Class Platform : Type := {
  long_bits : Z;
  long_bits_min : 32 <= long_bits;
  QUIC_STATUS_SUCCESS : QUIC_STATUS;
  QUIC_FAILED : QUIC_STATUS -> bool;
  QUIC_STREAM_OPEN_FLAG_UNIDIRECTIONAL : Z;
  FILE_ : string;
  LINE_ : Site -> Z;
  LINE_within : forall s, Site_first_line s <= LINE_ s <= Site_last_line s
}.

(** ** The MsQuic API table, as far as the header calls it *)

Inductive Callback : Type :=
| HttpRequest_QuicBidiCallbackHandler
| HttpRequest_QuicUnidiCallbackHandler
| HttpConnection_QuicCallbackHandler
| HttpServer_QuicCallbackHandler.

Inductive QUIC_STREAM_SHUTDOWN_FLAGS : Type := QUIC_STREAM_SHUTDOWN_FLAG_ABORT.
Inductive QUIC_SEND_RESUMPTION_FLAGS : Type := QUIC_SEND_RESUMPTION_FLAG_FINAL.
Inductive QUIC_PARAM_LEVEL : Type := QUIC_PARAM_LEVEL_SESSION.
Inductive QUIC_PARAM : Type :=
| QUIC_PARAM_SESSION_PEER_BIDI_STREAM_COUNT
| QUIC_PARAM_SESSION_PEER_UNIDI_STREAM_COUNT.

(** One invocation through the table, with its arguments.  A pointer
    argument that is read by the callee is given by the value it points
    to ([SetParam]); an out-parameter is part of the answer. *)
Inductive MsQuicCall : Type :=
| SetCallbackHandler (Handle : HQUIC) (Handler : Callback) (Context : ptr)
| ConnectionClose (Handle : HQUIC)
| ConnectionSendResumptionTicket
    (Connection : HQUIC) (Flags : QUIC_SEND_RESUMPTION_FLAGS)
    (DataLength : Z) (ResumptionData : option (list Byte.byte))
| StreamShutdown
    (Stream : HQUIC) (Flags : QUIC_STREAM_SHUTDOWN_FLAGS) (ErrorCode : Z)
| SessionOpen
    (Registration : HQUIC) (AlpnBuffers : list (list Byte.byte))
    (AlpnBufferCount : Z) (Context : option ptr)
| SetParam
    (Handle : HQUIC) (Level : QUIC_PARAM_LEVEL) (Param : QUIC_PARAM)
    (BufferLength : Z) (Buffer : Z)
| ListenerOpen (Session : HQUIC) (Handler : Callback) (Context : ptr)
| ListenerStart (Listener : HQUIC) (LocalAddress : QUIC_ADDR).

(** What the transport answers to a call: a status and, for the calls
    with an out-parameter, the handle written to it. *)
Record Reply : Type := { status : QUIC_STATUS; out_handle : HQUIC }.

(** The transport is free to answer as it likes; its answer may depend
    on everything it was asked so far (the log, the current call last). *)
Definition Transport : Type := list MsQuicCall -> Reply.

(** ** [printf] *)

Inductive PrintfArg : Type := ArgString (s : string) | ArgInt (n : Z).
Record PrintfCall : Type := { format : string; args : list PrintfArg }.

Definition newline : string := String (Ascii.ascii_of_nat 10) EmptyString.

(** ** The structs of the header *)

Module QUIC_BUFFER.
(** [struct QUIC_BUFFER] (msquic.h): a length and a pointer.  The pointer
    of a send buffer points into its own [RawBuffer]; it is kept as the
    offset from the start of that array. *)
Record t : Type := Build { Length : Z (* uint32_t *); Buffer : Z (* uint8_t* *) }.
End QUIC_BUFFER.

Record HttpSendBuffer : Type := {
  Flags : Z (* QUIC_SEND_FLAGS *);
  QuicBuffer : QUIC_BUFFER.t;
  RawBuffer : list cell (* uint8_t [IO_SIZE] *)
}.

Inductive HttpRequestErrorCodes : Type :=
| HttpRequestNoError
| HttpRequestNotGet
| HttpRequestFoundDots
| HttpRequestGetTooBig
| HttpRequestSendFailed
| HttpRequestRecvNoRoom
| HttpRequestPeerAbort
| HttpRequestExtraRecv.

(** The value of an enumerator: its position, from zero. *)
Definition ErrorCode_value (e : HttpRequestErrorCodes) : Z :=
  match e with
  | HttpRequestNoError => 0
  | HttpRequestNotGet => 1
  | HttpRequestFoundDots => 2
  | HttpRequestGetTooBig => 3
  | HttpRequestSendFailed => 4
  | HttpRequestRecvNoRoom => 5
  | HttpRequestPeerAbort => 6
  | HttpRequestExtraRecv => 7
  end.

Definition all_HttpRequestErrorCodes : list HttpRequestErrorCodes :=
  [HttpRequestNoError; HttpRequestNotGet; HttpRequestFoundDots;
   HttpRequestGetTooBig; HttpRequestSendFailed; HttpRequestRecvNoRoom;
   HttpRequestPeerAbort; HttpRequestExtraRecv].

Record HttpRequest : Type := {
  Connection : ptr (* HttpConnection* *);
  QuicStream : HQUIC;
  File : option Z (* FILE*, nullptr when no file is open *);
  Buffer : HttpSendBuffer;
  Shutdown : bool;
  WriteHttp11Header : bool
}.

Record HttpConnection : Type := {
  QuicConnection : HQUIC;
  RefCount : Z (* long *)
}.

Record HttpServer : Type := { QuicListener : HQUIC }.

Record HttpSession : Type := {
  Session : HQUIC;
  Server : ptr (* HttpServer* *)
}.

(** ** The world a method runs in *)

Inductive Object : Type :=
| ObjRequest (r : HttpRequest)
| ObjConnection (c : HttpConnection)
| ObjServer (s : HttpServer).

Record World : Type := {
  calls : list MsQuicCall   (* calls through the MsQuic table, oldest first *);
  stdout : list PrintfCall  (* what was printed, oldest first *);
  heap : gmap ptr Object    (* the objects created with new and not deleted *)
}.

Definition MsQuic (c : MsQuicCall) (w : World) : World :=
  {| calls := calls w ++ [c]; stdout := stdout w; heap := heap w |}.

Definition printf (p : PrintfCall) (w : World) : World :=
  {| calls := calls w; stdout := stdout w ++ [p]; heap := heap w |}.

Definition store (p : ptr) (o : Object) (w : World) : World :=
  {| calls := calls w; stdout := stdout w; heap := <[p := o]> (heap w) |}.

Definition free (p : ptr) (w : World) : World :=
  {| calls := calls w; stdout := stdout w; heap := delete p (heap w) |}.

(** [operator new]: an address that no live object has. *)
Definition operator_new (w : World) : ptr := fresh (dom (heap w)).

Definition load_request (p : ptr) (w : World) : option HttpRequest :=
  match heap w !! p with Some (ObjRequest r) => Some r | _ => None end.

Definition load_connection (p : ptr) (w : World) : option HttpConnection :=
  match heap w !! p with Some (ObjConnection c) => Some c | _ => None end.

(** What the transport has before it at a call: the call, and the memory
    of the program as it is at that moment.  The order of a store and a
    call in a method shows here: a store made before the call is in
    [seen_heap], a store made after it is not. *)
Record Seen : Type := { seen_call : MsQuicCall; seen_heap : gmap ptr Object }.

(** A call through the table, together with what the transport sees. *)
Definition MsQuic_seen (c : MsQuicCall) (w : World) : World * Seen :=
  (MsQuic c w, {| seen_call := c; seen_heap := heap w |}).

(** ** [struct HttpSendBuffer] *)
Module HttpSendBuffer.

(** [QUIC_SEND_FLAG_NONE] of msquic.h. *)
Definition QUIC_SEND_FLAG_NONE : Z := 0.

Definition Length (this : HttpSendBuffer) : Z :=
  QUIC_BUFFER.Length (QuicBuffer this).

(** [HttpSendBuffer()]: the array is left unwritten. *)
Definition ctor : HttpSendBuffer :=
  {| Flags := QUIC_SEND_FLAG_NONE;
     QuicBuffer := {| QUIC_BUFFER.Buffer := 0; QUIC_BUFFER.Length := 0 |};
     RawBuffer := unwritten IO_SIZE |}.

(** [bool IsFull() const { return QuicBuffer.Length == IO_SIZE; }] *)
Definition IsFull (this : HttpSendBuffer) : bool := Length this =? IO_SIZE.

(** [bool HasRoom(uint64_t Length) const
      { return Length + QuicBuffer.Length < IO_SIZE; }]
    The sum is a [uint64_t]. *)
Definition HasRoom (Length_ : Z) (this : HttpSendBuffer) : bool :=
  uint64 (Length_ + Length this) <? IO_SIZE.

(** [void Write(const void* Buffer, uint32_t Length)]:
    [memcpy(QuicBuffer.Buffer + QuicBuffer.Length, Buffer, Length);
     QuicBuffer.Length += Length;] *)
Definition Write (Buffer : list Byte.byte) (Length_ : Z) (this : HttpSendBuffer)
  : option HttpSendBuffer :=
  raw ← memcpy (RawBuffer this)
               (QUIC_BUFFER.Buffer (QuicBuffer this) + Length this)
               Buffer Length_;
  Some {| Flags := Flags this;
          QuicBuffer :=
            {| QUIC_BUFFER.Buffer := QUIC_BUFFER.Buffer (QuicBuffer this);
               QUIC_BUFFER.Length := uint32 (Length this + Length_) |};
          RawBuffer := raw |}.

(** [void Reset() { QuicBuffer.Length = 0; }] *)
Definition Reset (this : HttpSendBuffer) : HttpSendBuffer :=
  {| Flags := Flags this;
     QuicBuffer :=
       {| QUIC_BUFFER.Buffer := QUIC_BUFFER.Buffer (QuicBuffer this);
          QUIC_BUFFER.Length := 0 |};
     RawBuffer := RawBuffer this |}.

(** What the types and the constructor fix for every buffer: the length
    is a [uint32_t], the pointer is the start of the array, the array has
    [IO_SIZE] bytes. *)
Definition well_formed (this : HttpSendBuffer) : Prop :=
  in_unsigned 32 (Length this) /\
  QUIC_BUFFER.Buffer (QuicBuffer this) = 0 /\
  Z.of_nat (length (RawBuffer this)) = IO_SIZE.

(** The states a buffer goes through when [Write] is only called after
    [HasRoom] answered yes for the same size. *)
Inductive reachable : HttpSendBuffer -> Prop :=
| reach_ctor : reachable ctor
| reach_Reset b : reachable b -> reachable (Reset b)
| reach_Write b Buffer n b' :
    reachable b -> in_unsigned 32 n -> HasRoom n b = true ->
    Write Buffer n b = Some b' -> reachable b'.

End HttpSendBuffer.

(** ** [struct HttpRequest] *)
Module HttpRequest.

(** Modelled from the spec: the body of the constructor
    [HttpRequest::HttpRequest(HttpConnection*, HQUIC, bool)] is not in the
    header, which only declares it.  The spec gives a Request a
    back-reference to its Connection that is not counted (a spawned
    Request does not hold a reference), its stream handle, no open file
    yet, a fresh send buffer, the shutdown flag and the preamble flag not
    set, and has the callback of the stream set per directionality. *)
Definition ctor (this : ptr) (connection : ptr) (stream : HQUIC)
    (Unidirectional : bool) (w : World) : HttpRequest * World :=
  ({| Connection := connection;
      QuicStream := stream;
      File := None;
      Buffer := HttpSendBuffer.ctor;
      Shutdown := false;
      WriteHttp11Header := false |},
   MsQuic (SetCallbackHandler stream
             (if Unidirectional then HttpRequest_QuicUnidiCallbackHandler
              else HttpRequest_QuicBidiCallbackHandler)
             this) w).

(** [new HttpRequest(connection, stream, Unidirectional)] *)
Definition new (connection : ptr) (stream : HQUIC) (Unidirectional : bool)
    (w : World) : ptr * World :=
  let this := operator_new w in
  let '(r, w1) := ctor this connection stream Unidirectional w in
  (this, store this (ObjRequest r) w1).

Definition set_Shutdown (b : bool) (r : HttpRequest) : HttpRequest :=
  {| Connection := Connection r; QuicStream := QuicStream r; File := File r;
     Buffer := Buffer r; Shutdown := b;
     WriteHttp11Header := WriteHttp11Header r |}.

(** [void Abort(HttpRequestErrorCodes ErrorCode) {
       Shutdown = true;
       MsQuic->StreamShutdown(QuicStream, QUIC_STREAM_SHUTDOWN_FLAG_ABORT, ErrorCode); }] *)
Definition Abort (this : ptr) (ErrorCode : HttpRequestErrorCodes) (w : World)
  : option World :=
  r ← load_request this w;
  let w1 := store this (ObjRequest (set_Shutdown true r)) w in
  r1 ← load_request this w1;
  Some (MsQuic (StreamShutdown (QuicStream r1) QUIC_STREAM_SHUTDOWN_FLAG_ABORT
                  (ErrorCode_value ErrorCode)) w1).

(** [Abort] again, statement by statement, keeping for each call what the
    transport sees when it is made:
    [Shutdown = true;] is the store, then
    [MsQuic->StreamShutdown(QuicStream, QUIC_STREAM_SHUTDOWN_FLAG_ABORT, ErrorCode);]
    is the call, made on the memory the store left. *)
Definition Abort_seen (this : ptr) (ErrorCode : HttpRequestErrorCodes) (w : World)
  : option (World * list Seen) :=
  r ← load_request this w;
  let w1 := store this (ObjRequest (set_Shutdown true r)) w in
  r1 ← load_request this w1;
  let '(w2, seen) :=
    MsQuic_seen (StreamShutdown (QuicStream r1) QUIC_STREAM_SHUTDOWN_FLAG_ABORT
                   (ErrorCode_value ErrorCode)) w1 in
  Some (w2, [seen]).

End HttpRequest.

(** ** [struct HttpConnection] *)

(** The events of a connection that the handler tells apart; every other
    event type falls through the [switch]. *)
Inductive QUIC_CONNECTION_EVENT : Type :=
| QUIC_CONNECTION_EVENT_CONNECTED
| QUIC_CONNECTION_EVENT_PEER_STREAM_STARTED (Stream : HQUIC) (Flags : Z)
| QUIC_CONNECTION_EVENT_SHUTDOWN_COMPLETE
| QUIC_CONNECTION_EVENT_other (Type_ : Z).

Module HttpConnection.
Section WithPlatform.
Context `{Platform}.

(** [InterlockedIncrement] and [InterlockedDecrement] are primitives of
    the platform, not defined in the header.  On a [long] they store the
    new value and return it, wrapping in two's complement.  (Each is one
    atomic step; interleavings of several threads are not part of this
    model.) *)
Definition InterlockedIncrement (v : Z) : Z := wrap_signed long_bits (v + 1).
Definition InterlockedDecrement (v : Z) : Z := wrap_signed long_bits (v - 1).

Definition set_RefCount (v : Z) (c : HttpConnection) : HttpConnection :=
  {| QuicConnection := QuicConnection c; RefCount := v |}.

(** [HttpConnection(HQUIC connection) : QuicConnection(connection), RefCount(1)
      { MsQuic->SetCallbackHandler(QuicConnection, (void* )QuicCallbackHandler, this); }] *)
Definition ctor (this : ptr) (connection : HQUIC) (w : World)
  : HttpConnection * World :=
  let c := {| QuicConnection := connection; RefCount := 1 |} in
  (c, MsQuic (SetCallbackHandler (QuicConnection c)
                HttpConnection_QuicCallbackHandler this) w).

(** [new HttpConnection(connection)] *)
Definition new (connection : HQUIC) (w : World) : ptr * World :=
  let this := operator_new w in
  let '(c, w1) := ctor this connection w in
  (this, store this (ObjConnection c) w1).

(** [~HttpConnection() { MsQuic->ConnectionClose(QuicConnection); }] *)
Definition dtor (c : HttpConnection) (w : World) : World :=
  MsQuic (ConnectionClose (QuicConnection c)) w.

(** [delete this]: the destructor, then the storage is given back. *)
Definition delete_ (this : ptr) (w : World) : option World :=
  c ← load_connection this w;
  Some (free this (dtor c w)).

(** [void AddRef() { InterlockedIncrement(&RefCount); }] *)
Definition AddRef (this : ptr) (w : World) : option World :=
  c ← load_connection this w;
  Some (store this
          (ObjConnection (set_RefCount (InterlockedIncrement (RefCount c)) c)) w).

(** [void Release() { if (InterlockedDecrement(&RefCount) == 0) { delete this; } }] *)
Definition Release (this : ptr) (w : World) : option World :=
  c ← load_connection this w;
  let v := InterlockedDecrement (RefCount c) in
  let w1 := store this (ObjConnection (set_RefCount v c)) w in
  if v =? 0 then delete_ this w1 else Some w1.

(** The conversion to [bool] of [Flags & QUIC_STREAM_OPEN_FLAG_UNIDIRECTIONAL]. *)
Definition Unidirectional_of (Flags_ : Z) : bool :=
  negb (Z.land Flags_ QUIC_STREAM_OPEN_FLAG_UNIDIRECTIONAL =? 0).

(** [static QUIC_STATUS QuicCallbackHandler(HQUIC Connection, void* Context,
                                             QUIC_CONNECTION_EVENT* Event)] *)
Definition QuicCallbackHandler (Connection_ : HQUIC) (Context : ptr)
    (Event : QUIC_CONNECTION_EVENT) (w : World) : option (QUIC_STATUS * World) :=
  let pThis := Context in
  match Event with
  | QUIC_CONNECTION_EVENT_CONNECTED =>
      c ← load_connection pThis w;
      Some (QUIC_STATUS_SUCCESS,
            MsQuic (ConnectionSendResumptionTicket (QuicConnection c)
                      QUIC_SEND_RESUMPTION_FLAG_FINAL 0 None) w)
  | QUIC_CONNECTION_EVENT_PEER_STREAM_STARTED Stream Flags_ =>
      let '(_, w1) := HttpRequest.new pThis Stream (Unidirectional_of Flags_) w in
      Some (QUIC_STATUS_SUCCESS, w1)
  | QUIC_CONNECTION_EVENT_SHUTDOWN_COMPLETE =>
      w1 ← Release pThis w;
      Some (QUIC_STATUS_SUCCESS, w1)
  | QUIC_CONNECTION_EVENT_other _ =>
      Some (QUIC_STATUS_SUCCESS, w)
  end.

(** A caller of the counting interface. *)
Inductive RefOp : Type := OpAddRef | OpRelease.

Definition apply_RefOp (this : ptr) (op : RefOp) (w : World) : option World :=
  match op with
  | OpAddRef => AddRef this w
  | OpRelease => Release this w
  end.

(** Calls made one after the other on the same object. *)
Fixpoint run_RefOps (this : ptr) (ops : list RefOp) (w : World) : option World :=
  match ops with
  | [] => Some w
  | op :: rest => w1 ← apply_RefOp this op w; run_RefOps this rest w1
  end.

Definition is_OpAddRef (op : RefOp) : bool :=
  match op with OpAddRef => true | OpRelease => false end.
Definition is_OpRelease (op : RefOp) : bool :=
  match op with OpAddRef => false | OpRelease => true end.

Fixpoint count_ops (f : RefOp -> bool) (ops : list RefOp) : Z :=
  match ops with
  | [] => 0
  | op :: rest => (if f op then 1 else 0) + count_ops f rest
  end.

End WithPlatform.
End HttpConnection.

(** ** Start-up code: a run either returns or leaves through [exit] *)

Inductive Outcome (A : Type) : Type :=
| Returned (a : A) (w : World)
| Exited (code : Z) (w : World).
Arguments Returned {A} a w.
Arguments Exited {A} code w.

Definition Startup (A : Type) : Type := World -> Outcome A.

#[export] Instance Startup_ret : MRet Startup :=
  fun A (a : A) (w : World) => Returned a w.

#[export] Instance Startup_bind : MBind Startup :=
  fun A B (k : A -> Startup B) (m : Startup A) (w : World) =>
    match m w with
    | Returned a w' => k a w'
    | Exited code w' => Exited code w'
    end.

(** [exit(code)] does not return. *)
Definition exit {A : Type} (code : Z) : Startup A := fun w => Exited code w.

Definition do_printf (p : PrintfCall) : Startup unit :=
  fun w => Returned tt (printf p w).

Section Startup.
Context `{Platform}.
(** How the transport answers. *)
Variable T : Transport.

(** A call through the table whose status is looked at. *)
Definition MsQuic_status (c : MsQuicCall) : Startup (QUIC_STATUS * unit) :=
  fun w => let w' := MsQuic c w in Returned (status (T (calls w')), tt) w'.

(** The same, for a call that also writes a handle to an out-parameter. *)
Definition MsQuic_open (c : MsQuicCall) : Startup (QUIC_STATUS * HQUIC) :=
  fun w => let w' := MsQuic c w in
           Returned (status (T (calls w')), out_handle (T (calls w'))) w'.

(** [#define EXIT_ON_FAILURE(x) do {
       auto _Status = x;
       if (QUIC_FAILED(_Status)) {
          printf("%s:%d %s failed!\n", __FILE__, __LINE__, #x);
          exit(1);
       } } while (0);]
    [site] says which expansion this is; what [x] wrote to its
    out-parameter is handed on. *)
Definition EXIT_ON_FAILURE {A : Type} (site : Site)
    (x : Startup (QUIC_STATUS * A)) : Startup A :=
  r ← x;
  let _Status := r.1 in
  if QUIC_FAILED _Status then
    _ ← do_printf {| format := "%s:%d %s failed!" +:+ newline;
                     args := [ArgString FILE_; ArgInt (LINE_ site);
                              ArgString (Site_text site)] |};
    exit 1
  else mret r.2.

End Startup.

(** The events of a listener: the handler only looks for a new
    connection.  [SecurityConfig] is the field of the event that the
    handler fills in ([None] while it is not set). *)
Inductive QUIC_LISTENER_EVENT : Type :=
| QUIC_LISTENER_EVENT_NEW_CONNECTION (Connection : HQUIC) (SecurityConfig : option Z)
| QUIC_LISTENER_EVENT_other (Type_ : Z).

(** The entries of the MsQuic table that only the destructors of the
    server and of the session call.  A destructor makes no other call, so
    its calls are given as a list of their own, in order. *)
Inductive QUIC_CONNECTION_SHUTDOWN_FLAGS : Type := QUIC_CONNECTION_SHUTDOWN_FLAG_NONE.

Inductive MsQuicTeardownCall : Type :=
| ListenerClose (Listener : HQUIC)
| SessionShutdown (Session : HQUIC) (Flags : QUIC_CONNECTION_SHUTDOWN_FLAGS)
    (ErrorCode : Z)
| SessionClose (Session : HQUIC).

Definition load_server (p : ptr) (w : World) : option HttpServer :=
  match heap w !! p with Some (ObjServer s) => Some s | _ => None end.

(** ** [struct HttpServer] *)
Module HttpServer.
Section WithPlatform.
Context `{Platform}.
Variable T : Transport.

(** [HttpServer(HQUIC Session, const QUIC_ADDR* LocalAddress)] *)
Definition ctor (this : ptr) (Session_ : HQUIC) (LocalAddress : QUIC_ADDR)
  : Startup HttpServer :=
  QuicListener_ ← EXIT_ON_FAILURE Site_ListenerOpen
    (MsQuic_open T (ListenerOpen Session_ HttpServer_QuicCallbackHandler this));
  _ ← EXIT_ON_FAILURE Site_ListenerStart
    (MsQuic_status T (ListenerStart QuicListener_ LocalAddress));
  mret {| QuicListener := QuicListener_ |}.

(** [new HttpServer(Session, LocalAddress)] *)
Definition new (Session_ : HQUIC) (LocalAddress : QUIC_ADDR) : Startup ptr :=
  fun w =>
    let this := operator_new w in
    match ctor this Session_ LocalAddress w with
    | Returned s w' => Returned this (store this (ObjServer s) w')
    | Exited code w' => Exited code w'
    end.

(** [~HttpServer() { MsQuic->ListenerClose(QuicListener); }] *)
Definition dtor (s : HttpServer) : list MsQuicTeardownCall :=
  [ListenerClose (QuicListener s)].

(** [extern QUIC_SEC_CONFIG* SecurityConfig] and the status
    [QUIC_STATUS_NOT_SUPPORTED] of the platform. *)
Variable SecurityConfig : Z.
Variable QUIC_STATUS_NOT_SUPPORTED : QUIC_STATUS.

(** [static QUIC_STATUS QuicCallbackHandler(HQUIC, void*, QUIC_LISTENER_EVENT* Event)]:
    the handle and the context are not looked at; the event is handed
    back as the handler leaves it. *)
Definition QuicCallbackHandler (Event : QUIC_LISTENER_EVENT) (w : World)
  : QUIC_STATUS * QUIC_LISTENER_EVENT * World :=
  match Event with
  | QUIC_LISTENER_EVENT_NEW_CONNECTION Connection_ _ =>
      let Event' := QUIC_LISTENER_EVENT_NEW_CONNECTION Connection_ (Some SecurityConfig) in
      let '(_, w1) := HttpConnection.new Connection_ w in
      (QUIC_STATUS_SUCCESS, Event', w1)
  | QUIC_LISTENER_EVENT_other _ =>
      (QUIC_STATUS_NOT_SUPPORTED, Event, w)
  end.

End WithPlatform.
End HttpServer.

(** ** [struct HttpSession] *)
Module HttpSession.
Section WithPlatform.
Context `{Platform}.
Variable T : Transport.

(** [sizeof(uint16_t)] *)
Definition sizeof_uint16_t : Z := 2.

(** [HttpSession(HQUIC Registration, const QUIC_BUFFER* const AlpnBuffers,
                 uint32_t AlpnBufferCount, const QUIC_ADDR* LocalAddress)] *)
Definition ctor (Registration : HQUIC) (AlpnBuffers : list (list Byte.byte))
    (AlpnBufferCount : Z) (LocalAddress : QUIC_ADDR) : Startup HttpSession :=
  Session_ ← EXIT_ON_FAILURE Site_SessionOpen
    (MsQuic_open T (SessionOpen Registration AlpnBuffers AlpnBufferCount None));
  let PeerBidiStreamCount := uint16 MAX_HTTP_REQUESTS_PER_CONNECTION in
  let PeerUnidiStreamCount := uint16 1 in
  _ ← EXIT_ON_FAILURE Site_SetParam_PeerBidi
    (MsQuic_status T
       (SetParam Session_ QUIC_PARAM_LEVEL_SESSION
          QUIC_PARAM_SESSION_PEER_BIDI_STREAM_COUNT
          sizeof_uint16_t PeerBidiStreamCount));
  _ ← EXIT_ON_FAILURE Site_SetParam_PeerUnidi
    (MsQuic_status T
       (SetParam Session_ QUIC_PARAM_LEVEL_SESSION
          QUIC_PARAM_SESSION_PEER_UNIDI_STREAM_COUNT
          sizeof_uint16_t PeerUnidiStreamCount));
  Server_ ← HttpServer.new T Session_ LocalAddress;
  mret {| Session := Session_; Server := Server_ |}.

(** [~HttpSession() {
       delete Server;
       MsQuic->SessionShutdown(Session, QUIC_CONNECTION_SHUTDOWN_FLAG_NONE, 0);
       MsQuic->SessionClose(Session); }]
    [delete Server] runs the destructor of the server and gives its
    storage back; a [Server] that is not a live server is undefined. *)
Definition dtor (s : HttpSession) (w : World)
  : option (list MsQuicTeardownCall * World) :=
  srv ← load_server (Server s) w;
  Some (HttpServer.dtor srv
          ++ [SessionShutdown (Session s) QUIC_CONNECTION_SHUTDOWN_FLAG_NONE 0;
              SessionClose (Session s)],
        free (Server s) w).

End WithPlatform.
End HttpSession.

(** ** Two platforms the server is built for *)

(** Windows: [long] has 32 bits, a status is an HRESULT and fails when
    negative; [__LINE__] is the line where the invocation starts. *)
Definition Windows_x64 : Platform :=
  {| long_bits := 32;
     long_bits_min := ltac:(lia);
     QUIC_STATUS_SUCCESS := 0;
     QUIC_FAILED := fun s => s <? 0;
     QUIC_STREAM_OPEN_FLAG_UNIDIRECTIONAL := 1;
     FILE_ := "InteropServer.h";
     LINE_ := Site_first_line;
     LINE_within := ltac:(intros []; cbn; lia) |}.

(** Linux: [long] has 64 bits, a status is an errno value and fails when
    positive; [__LINE__] is the line where the invocation ends. *)
Definition Linux_x64 : Platform :=
  {| long_bits := 64;
     long_bits_min := ltac:(lia);
     QUIC_STATUS_SUCCESS := 0;
     QUIC_FAILED := fun s => 0 <? s;
     QUIC_STREAM_OPEN_FLAG_UNIDIRECTIONAL := 1;
     FILE_ := "InteropServer.h";
     LINE_ := Site_last_line;
     LINE_within := ltac:(intros []; cbn; lia) |}.

(** ** Vocabulary of the statements *)

Definition abort_call (r : HttpRequest) (e : HttpRequestErrorCodes) : MsQuicCall :=
  StreamShutdown (QuicStream r) QUIC_STREAM_SHUTDOWN_FLAG_ABORT (ErrorCode_value e).

(** The world in which the only change is that the request at [this] has
    its [Shutdown] flag set. *)
Definition flagged (this : ptr) (r : HttpRequest) (w : World) : World :=
  store this (ObjRequest (HttpRequest.set_Shutdown true r)) w.

(** The line printed when the expansion at [site] sees a failure. *)
Definition diagnostic `{Platform} (site : Site) : PrintfCall :=
  {| format := "%s:%d %s failed!" +:+ newline;
     args := [ArgString FILE_; ArgInt (LINE_ site); ArgString (Site_text site)] |}.

(** The start-up operations in the order of the spec: session open, the two
    stream-count parameters, listener open, listener start.  The session
    and listener handles are those the transport handed out. *)
Definition startup_sites : list Site :=
  [Site_SessionOpen; Site_SetParam_PeerBidi; Site_SetParam_PeerUnidi;
   Site_ListenerOpen; Site_ListenerStart].

Definition opened_session (T : Transport) (Registration : HQUIC)
    (AlpnBuffers : list (list Byte.byte)) (AlpnBufferCount : Z) (w : World) : HQUIC :=
  out_handle (T (calls w ++ [SessionOpen Registration AlpnBuffers AlpnBufferCount None])).

Definition stream_count_configuration (Session_ : HQUIC) : list MsQuicCall :=
  [SetParam Session_ QUIC_PARAM_LEVEL_SESSION
     QUIC_PARAM_SESSION_PEER_BIDI_STREAM_COUNT 2 100;
   SetParam Session_ QUIC_PARAM_LEVEL_SESSION
     QUIC_PARAM_SESSION_PEER_UNIDI_STREAM_COUNT 2 1].

Definition opened_listener (T : Transport) (Registration : HQUIC)
    (AlpnBuffers : list (list Byte.byte)) (AlpnBufferCount : Z) (w : World) : HQUIC :=
  let Session_ := opened_session T Registration AlpnBuffers AlpnBufferCount w in
  out_handle
    (T (calls w ++ [SessionOpen Registration AlpnBuffers AlpnBufferCount None]
                ++ stream_count_configuration Session_
                ++ [ListenerOpen Session_ HttpServer_QuicCallbackHandler
                      (operator_new w)])).

Definition startup_plan (T : Transport) (Registration : HQUIC)
    (AlpnBuffers : list (list Byte.byte)) (AlpnBufferCount : Z)
    (LocalAddress : QUIC_ADDR) (w : World) : list MsQuicCall :=
  let Session_ := opened_session T Registration AlpnBuffers AlpnBufferCount w in
  [SessionOpen Registration AlpnBuffers AlpnBufferCount None]
  ++ stream_count_configuration Session_
  ++ [ListenerOpen Session_ HttpServer_QuicCallbackHandler (operator_new w);
      ListenerStart (opened_listener T Registration AlpnBuffers AlpnBufferCount w)
        LocalAddress].

(** The status the transport gives to step [k] of a plan (from 0) when the
    steps before it were made. *)
Definition step_status (T : Transport) (w : World) (plan : list MsQuicCall) (k : nat)
  : QUIC_STATUS :=
  status (T (calls w ++ take (S k) plan)).

(** The world after a failure at step [k]. *)
Definition world_after_failure `{Platform} (w : World) (plan : list MsQuicCall)
    (k : nat) (site : Site) : World :=
  {| calls := calls w ++ take (S k) plan;
     stdout := stdout w ++ [diagnostic site];
     heap := heap w |}.

Definition is_SetParam (c : MsQuicCall) : bool :=
  match c with SetParam _ _ _ _ _ => true | _ => false end.

(** Bring a world built from [MsQuic], [printf] and [store] into the
    shape of a record with a flat log. *)
Ltac norm_world :=
  unfold printf, MsQuic, store; cbn [calls stdout heap];
  rewrite <- ?app_assoc; cbn [app].

(** A [Write] of a whole chunk, made only after [HasRoom] said yes for its
    size (the discipline of [reach_Write]); [None] when the check says no. *)
Definition checked_Write (Buffer : list Byte.byte) (b : HttpSendBuffer)
  : option HttpSendBuffer :=
  let n := Z.of_nat (length Buffer) in
  if HttpSendBuffer.HasRoom n b then HttpSendBuffer.Write Buffer n b else None.

(** Chunks written one after the other, each one checked. *)
Fixpoint checked_Writes (chunks : list (list Byte.byte)) (b : HttpSendBuffer)
  : option HttpSendBuffer :=
  match chunks with
  | [] => Some b
  | chunk :: rest => b1 ← checked_Write chunk b; checked_Writes rest b1
  end.

(** The bytes a buffer holds: the first [Length] bytes of the array. *)
Definition contents (b : HttpSendBuffer) : list cell :=
  take (Z.to_nat (HttpSendBuffer.Length b)) (RawBuffer b).

(** [Abort] invoked once for each code of a list, in order. *)
Fixpoint Aborts (this : ptr) (codes : list HttpRequestErrorCodes) (w : World)
  : option World :=
  match codes with
  | [] => Some w
  | e :: rest => w1 ← HttpRequest.Abort this e w; Aborts this rest w1
  end.

(** The count after a run of calls, as an integer: what was there plus the
    calls to [AddRef] minus the calls to [Release]. *)
Definition balance (start : Z) (ops : list HttpConnection.RefOp) : Z :=
  start + HttpConnection.count_ops HttpConnection.is_OpAddRef ops
        - HttpConnection.count_ops HttpConnection.is_OpRelease ops.

(** Events delivered to the handler of a connection one after the other. *)
Fixpoint deliver `{Platform} (Connection_ : HQUIC) (Context : ptr)
    (Events : list QUIC_CONNECTION_EVENT) (w : World) : option World :=
  match Events with
  | [] => Some w
  | Event :: rest =>
      r ← HttpConnection.QuicCallbackHandler Connection_ Context Event w;
      deliver Connection_ Context rest r.2
  end.

(** The events that neither start a stream nor end the connection. *)
Definition is_quiet (Event : QUIC_CONNECTION_EVENT) : bool :=
  match Event with
  | QUIC_CONNECTION_EVENT_CONNECTED | QUIC_CONNECTION_EVENT_other _ => true
  | _ => false
  end.

(** The resumption tickets sent for a list of events: one for each
    connected event. *)
Definition tickets (connection : HQUIC) (Events : list QUIC_CONNECTION_EVENT)
  : list MsQuicCall :=
  flat_map (fun Event =>
              match Event with
              | QUIC_CONNECTION_EVENT_CONNECTED =>
                  [ConnectionSendResumptionTicket connection
                     QUIC_SEND_RESUMPTION_FLAG_FINAL 0 None]
              | _ => []
              end) Events.

(** A transport that accepts every call and hands out the handle 42. *)
Definition always_succeeds : Transport :=
  fun _ => {| status := 0; out_handle := 42 |}.

(** ** Worlds and transports used as examples *)

Definition empty_world : World := {| calls := []; stdout := []; heap := ∅ |}.

(** A bidirectional request on stream 7 of the connection at address 1,
    alone in the heap at address 2. *)
Definition example_request : HttpRequest :=
  {| Connection := 1%positive; QuicStream := 7; File := None;
     Buffer := HttpSendBuffer.ctor; Shutdown := false;
     WriteHttp11Header := false |}.

Definition example_request_world : World :=
  {| calls := []; stdout := [];
     heap := {[ 2%positive := ObjRequest example_request ]} |}.

(** A connection with count 3 on handle 5, alone in the heap at address 1. *)
Definition example_connection_world : World :=
  {| calls := []; stdout := [];
     heap := {[ 1%positive := ObjConnection {| QuicConnection := 5; RefCount := 3 |} ]} |}.

(** A transport that turns down the third call it gets. *)
Definition third_call_fails : Transport :=
  fun log => {| status := if (length log =? 3)%nat then 1 else 0; out_handle := 42 |}.

(** * Properties of the send buffer *)

Lemma wrap_small bits x : 0 <= x < 2 ^ bits -> wrap bits x = x.
Proof. intros; unfold wrap; apply Z.mod_small; assumption. Qed.

Lemma HasRoom_uint64 n b :
  HttpSendBuffer.HasRoom n b = true <->
  (n + HttpSendBuffer.Length b) mod 2 ^ 64 < IO_SIZE.
Proof. unfold HttpSendBuffer.HasRoom, uint64, wrap. apply Z.ltb_lt. Qed.

Lemma HasRoom_exact n b :
  0 <= n -> 0 <= HttpSendBuffer.Length b ->
  n + HttpSendBuffer.Length b < 2 ^ 64 ->
  (HttpSendBuffer.HasRoom n b = true <-> HttpSendBuffer.Length b + n < IO_SIZE).
Proof.
  intros Hn Hl Hs. rewrite HasRoom_uint64, Z.mod_small by lia. lia.
Qed.

Lemma memcpy_Some dst off src n :
  0 <= off -> 0 <= n ->
  off + n <= Z.of_nat (length dst) -> n <= Z.of_nat (length src) ->
  memcpy dst off src n =
    Some (take (Z.to_nat off) dst ++ (Some <$> take (Z.to_nat n) src)
          ++ drop (Z.to_nat (off + n)) dst).
Proof.
  intros. unfold memcpy. rewrite bool_decide_eq_true_2; [reflexivity | lia].
Qed.

Lemma memcpy_None dst off src n :
  Z.of_nat (length dst) < off + n -> memcpy dst off src n = None.
Proof.
  intros. unfold memcpy. rewrite bool_decide_eq_false_2; [reflexivity | lia].
Qed.

Lemma memcpy_length dst off src n dst' :
  memcpy dst off src n = Some dst' -> length dst' = length dst.
Proof.
  unfold memcpy. case_bool_decide as Hb; [|discriminate].
  intros [= <-]. destruct Hb as (Hoff & Hn & Hd & Hs).
  rewrite !length_app, length_fmap, !length_take, length_drop. lia.
Qed.

(** The bytes copied: position [off + i] of the destination holds byte [i]
    of the source. *)
Lemma memcpy_copied dst off src n dst' (i : nat) :
  memcpy dst off src n = Some dst' -> Z.of_nat i < n ->
  dst' !! (Z.to_nat off + i)%nat = Some <$> (src !! i).
Proof.
  unfold memcpy. case_bool_decide as Hb; [|discriminate].
  intros [= <-] Hi. destruct Hb as (Hoff & Hn & Hd & Hs).
  rewrite lookup_app_r by (rewrite length_take; lia).
  rewrite length_take.
  replace (Z.to_nat off + i - Z.to_nat off `min` length dst)%nat with i by lia.
  rewrite lookup_app_l by (rewrite length_fmap, length_take; lia).
  rewrite list_lookup_fmap, lookup_take_lt by lia.
  destruct (src !! i) eqn:E; [reflexivity|].
  apply lookup_ge_None in E. lia.
Qed.

(** Everything outside [[off, off + n)] is left as it was. *)
Lemma memcpy_elsewhere dst off src n dst' (i : nat) :
  memcpy dst off src n = Some dst' ->
  Z.of_nat i < off \/ off + n <= Z.of_nat i ->
  dst' !! i = dst !! i.
Proof.
  unfold memcpy. case_bool_decide as Hb; [|discriminate].
  intros [= <-] Hi. destruct Hb as (Hoff & Hn & Hd & Hs).
  destruct Hi as [Hi|Hi].
  - rewrite lookup_app_l by (rewrite length_take; lia).
    apply lookup_take_lt. lia.
  - rewrite lookup_app_r by (rewrite length_take; lia).
    rewrite lookup_app_r by (rewrite length_fmap, !length_take; lia).
    rewrite lookup_drop, length_fmap, !length_take. f_equal. lia.
Qed.

Lemma length_unwritten n : 0 <= n -> Z.of_nat (length (unwritten n)) = n.
Proof. intros. unfold unwritten. rewrite length_replicate. lia. Qed.

Lemma well_formed_ctor : HttpSendBuffer.well_formed HttpSendBuffer.ctor.
Proof.
  unfold HttpSendBuffer.well_formed, HttpSendBuffer.Length, in_unsigned.
  cbn [HttpSendBuffer.ctor RawBuffer QuicBuffer QUIC_BUFFER.Length QUIC_BUFFER.Buffer].
  rewrite length_unwritten by (unfold IO_SIZE; lia). lia.
Qed.

Lemma well_formed_Reset b :
  HttpSendBuffer.well_formed b -> HttpSendBuffer.well_formed (HttpSendBuffer.Reset b).
Proof.
  unfold HttpSendBuffer.well_formed, HttpSendBuffer.Length, in_unsigned. simpl.
  intros (? & ? & ?). lia.
Qed.

(** [Write] goes through exactly when the copy stays inside the array:
    it has no test of its own. *)
Lemma Write_defined b src n :
  HttpSendBuffer.well_formed b -> 0 <= n -> n <= Z.of_nat (length src) ->
  (is_Some (HttpSendBuffer.Write src n b) <-> HttpSendBuffer.Length b + n <= IO_SIZE).
Proof.
  intros (Hl & Hp & Hr) Hn Hs. unfold HttpSendBuffer.Write. rewrite Hp.
  unfold in_unsigned in Hl. split.
  - intros [b' Hb']. destruct (memcpy _ _ _ _) eqn:E; [|discriminate].
    unfold memcpy in E. case_bool_decide; [lia | discriminate].
  - intros Hle. rewrite memcpy_Some by lia. simpl. eauto.
Qed.

(** The effect of a [Write] that was preceded by [HasRoom]. *)
Lemma Write_after_HasRoom b src n :
  HttpSendBuffer.well_formed b -> in_unsigned 32 n -> n <= Z.of_nat (length src) ->
  HttpSendBuffer.HasRoom n b = true ->
  exists b', HttpSendBuffer.Write src n b = Some b' /\
             HttpSendBuffer.Length b' = HttpSendBuffer.Length b + n /\
             HttpSendBuffer.Length b' < IO_SIZE /\
             HttpSendBuffer.well_formed b'.
Proof.
  intros Hwf Hn Hs Hroom. pose proof Hwf as (Hl & Hp & Hr).
  unfold in_unsigned in *.
  apply HasRoom_exact in Hroom; [|lia..].
  destruct (proj2 (Write_defined b src n Hwf (proj1 Hn) Hs)) as [b' Hb']; [lia|].
  exists b'. split; [assumption|].
  unfold HttpSendBuffer.Write in Hb'.
  destruct (memcpy _ _ _ _) as [raw|] eqn:E; [|discriminate].
  simpl in Hb'. injection Hb' as <-.
  apply memcpy_length in E.
  unfold HttpSendBuffer.well_formed, HttpSendBuffer.Length, in_unsigned. simpl.
  fold (HttpSendBuffer.Length b).
  unfold uint32. rewrite (wrap_small 32) by (unfold IO_SIZE in *; lia).
  rewrite E. unfold IO_SIZE in *. lia.
Qed.

Lemma Write_length_lt b src n b' :
  HttpSendBuffer.well_formed b -> in_unsigned 32 n ->
  HttpSendBuffer.HasRoom n b = true ->
  HttpSendBuffer.Write src n b = Some b' ->
  HttpSendBuffer.Length b' = HttpSendBuffer.Length b + n /\
  HttpSendBuffer.Length b' < IO_SIZE /\ HttpSendBuffer.well_formed b'.
Proof.
  intros Hwf Hn Hroom Hw.
  assert (Hs : n <= Z.of_nat (length src)).
  { unfold HttpSendBuffer.Write in Hw.
    destruct (memcpy _ _ _ _) eqn:E; [|discriminate].
    unfold memcpy in E. case_bool_decide; [lia | discriminate]. }
  destruct (Write_after_HasRoom b src n Hwf Hn Hs Hroom) as (b2 & Hb2 & ?).
  rewrite Hw in Hb2. injection Hb2 as <-. assumption.
Qed.

Lemma reachable_well_formed b :
  HttpSendBuffer.reachable b ->
  HttpSendBuffer.well_formed b /\ HttpSendBuffer.Length b < IO_SIZE.
Proof.
  induction 1 as [|b Hb [IHw IHl]|b src n b' Hb [IHw IHl] Hn Hroom Hw].
  - split; [apply well_formed_ctor | reflexivity].
  - split; [apply well_formed_Reset; assumption | reflexivity].
  - destruct (Write_length_lt b src n b' IHw Hn Hroom Hw) as (_ & ? & ?).
    split; assumption.
Qed.

(** * The send buffer: claims C3, C4, C10 *)

(** C3.  The invariant [length <= capacity] (capacity 65536) holds of every
    buffer state that the constructor, [Reset] and [Write]-after-[HasRoom]
    can produce: the constructor and [Reset] leave the length at 0, and a
    [Write] of [n] bytes done when [HasRoom n] answered yes leaves it
    strictly below the capacity. *)
Theorem C3_length_le_capacity (b : HttpSendBuffer) :
  HttpSendBuffer.reachable b ->
  IO_SIZE = 65536 /\
  HttpSendBuffer.Length b <= IO_SIZE /\
  HttpSendBuffer.Length HttpSendBuffer.ctor = 0 /\
  HttpSendBuffer.Length (HttpSendBuffer.Reset b) = 0 /\
  (forall Buffer n b',
      in_unsigned 32 n -> HttpSendBuffer.HasRoom n b = true ->
      HttpSendBuffer.Write Buffer n b = Some b' ->
      HttpSendBuffer.Length b' = HttpSendBuffer.Length b + n /\
      HttpSendBuffer.Length b' < IO_SIZE).
Proof.
  intros Hb. destruct (reachable_well_formed b Hb) as [Hwf Hlt].
  split; [reflexivity|]. split; [lia|].
  split; [reflexivity|]. split; [reflexivity|].
  intros Buffer n b' Hn Hroom Hw.
  destruct (Write_length_lt b Buffer n b' Hwf Hn Hroom Hw) as (? & ? & _).
  split; assumption.
Qed.

(** A buffer that was written to once and then reset. *)
Lemma C3_witness :
  exists b, HttpSendBuffer.reachable (HttpSendBuffer.Reset b) /\
            HttpSendBuffer.Length b = 3 /\
            HttpSendBuffer.Length (HttpSendBuffer.Reset b) <= IO_SIZE.
Proof.
  assert (Hn : in_unsigned 32 3) by (unfold in_unsigned; lia).
  assert (Hroom : HttpSendBuffer.HasRoom 3 HttpSendBuffer.ctor = true)
    by reflexivity.
  destruct (Write_after_HasRoom HttpSendBuffer.ctor
              [Byte.x47; Byte.x45; Byte.x54] 3 well_formed_ctor Hn
              ltac:(cbn [length]; lia) Hroom) as (b & Hw & Hlen & _).
  exists b.
  assert (Hr : HttpSendBuffer.reachable (HttpSendBuffer.Reset b)).
  { apply HttpSendBuffer.reach_Reset.
    exact (HttpSendBuffer.reach_Write _ _ _ _ HttpSendBuffer.reach_ctor Hn Hroom Hw). }
  split; [exact Hr|]. split; [exact Hlen|].
  exact (proj1 (proj2 (C3_length_le_capacity _ Hr))).
Defined.

(** C4, as stated, fails: in a buffer that holds one byte, [HasRoom] of the
    largest [uint64_t] answers yes, although one byte more than that is far
    beyond the capacity.  The sum wraps around to 0. *)
Lemma C4_counterexample :
  exists b, HttpSendBuffer.Write [Byte.x47] 1 HttpSendBuffer.ctor = Some b /\
            HttpSendBuffer.Length b = 1 /\
            in_unsigned 64 (2 ^ 64 - 1) /\
            HttpSendBuffer.HasRoom (2 ^ 64 - 1) b = true /\
            ~ (HttpSendBuffer.Length b + (2 ^ 64 - 1) < 65536).
Proof.
  assert (Hn : in_unsigned 32 1) by (unfold in_unsigned; lia).
  destruct (Write_after_HasRoom HttpSendBuffer.ctor [Byte.x47] 1
              well_formed_ctor Hn ltac:(cbn [length]; lia) eq_refl)
    as (b & Hw & Hlen & _).
  change (HttpSendBuffer.Length HttpSendBuffer.ctor) with 0 in Hlen.
  exists b. split; [exact Hw|]. split; [exact Hlen|].
  split; [unfold in_unsigned; lia|].
  split; [|rewrite Hlen; lia].
  apply HasRoom_uint64. rewrite Hlen. reflexivity.
Qed.

(** C4, amended.  Whenever the sum [length + n] does not wrap around as a
    [uint64_t], [HasRoom n] answers yes if and only if
    [length + n < 65536]. *)
Theorem C4_HasRoom_exact_without_wrap (b : HttpSendBuffer) (n : Z) :
  HttpSendBuffer.well_formed b -> in_unsigned 64 n ->
  HttpSendBuffer.Length b + n < 2 ^ 64 ->
  (HttpSendBuffer.HasRoom n b = true <-> HttpSendBuffer.Length b + n < 65536).
Proof.
  intros (Hl & _) Hn Hs. unfold in_unsigned in *.
  change 65536 with IO_SIZE. apply HasRoom_exact; lia.
Qed.

Lemma C4_witness :
  HttpSendBuffer.HasRoom 65535 HttpSendBuffer.ctor = true <->
  HttpSendBuffer.Length HttpSendBuffer.ctor + 65535 < 65536.
Proof.
  apply (C4_HasRoom_exact_without_wrap HttpSendBuffer.ctor 65535).
  - exact well_formed_ctor.
  - unfold in_unsigned; lia.
  - change (HttpSendBuffer.Length HttpSendBuffer.ctor) with 0; lia.
Defined.

(** C10.  When [HasRoom n] holds, [Write] of [n] bytes is defined: the copy
    lies inside the 65536 bytes of [RawBuffer], the bytes land at positions
    [length .. length + n - 1], nothing else is touched, and the new length
    is [length + n < 65536].  [Write] has no test of its own: it goes through
    exactly when the copy fits.  The precondition is needed: a [Write] that
    ends with [length + n < 65536] as the new length was one for which
    [HasRoom n] holds, and without the precondition [Write] can run past the
    end of the array. *)
Theorem C10_Write_within_RawBuffer :
  (forall (b : HttpSendBuffer) (Buffer : list Byte.byte) (n : Z),
      HttpSendBuffer.well_formed b -> in_unsigned 32 n ->
      n <= Z.of_nat (length Buffer) ->
      HttpSendBuffer.HasRoom n b = true ->
      exists b',
        HttpSendBuffer.Write Buffer n b = Some b' /\
        HttpSendBuffer.Length b' = HttpSendBuffer.Length b + n /\
        HttpSendBuffer.Length b' < 65536 /\
        Z.of_nat (length (RawBuffer b')) = 65536 /\
        (forall i : nat, Z.of_nat i < n ->
           RawBuffer b' !! (Z.to_nat (HttpSendBuffer.Length b) + i)%nat
           = Some <$> (Buffer !! i)) /\
        (forall i : nat,
           Z.of_nat i < HttpSendBuffer.Length b \/
           HttpSendBuffer.Length b + n <= Z.of_nat i ->
           RawBuffer b' !! i = RawBuffer b !! i)) /\
  (forall (b : HttpSendBuffer) (Buffer : list Byte.byte) (n : Z),
      HttpSendBuffer.well_formed b -> 0 <= n ->
      n <= Z.of_nat (length Buffer) ->
      (is_Some (HttpSendBuffer.Write Buffer n b) <->
       HttpSendBuffer.Length b + n <= 65536)) /\
  (forall (b b' : HttpSendBuffer) (Buffer : list Byte.byte) (n : Z),
      HttpSendBuffer.well_formed b -> in_unsigned 32 n ->
      HttpSendBuffer.Write Buffer n b = Some b' ->
      HttpSendBuffer.Length b' = HttpSendBuffer.Length b + n ->
      HttpSendBuffer.Length b' < 65536 ->
      HttpSendBuffer.HasRoom n b = true) /\
  (exists (b : HttpSendBuffer) (Buffer : list Byte.byte) (n : Z),
      HttpSendBuffer.reachable b /\ in_unsigned 32 n /\
      n <= Z.of_nat (length Buffer) /\
      HttpSendBuffer.HasRoom n b = false /\
      HttpSendBuffer.Write Buffer n b = None).
Proof.
  split; [|split; [|split]].
  - intros b Buffer n Hwf Hn Hs Hroom.
    destruct (Write_after_HasRoom b Buffer n Hwf Hn Hs Hroom)
      as (b' & Hw & Hlen & Hlt & Hwf').
    exists b'. split; [exact Hw|]. split; [exact Hlen|].
    split; [exact Hlt|]. split; [exact (proj2 (proj2 Hwf'))|].
    destruct Hwf as (Hl & Hp & Hr).
    unfold HttpSendBuffer.Write in Hw. rewrite Hp in Hw.
    destruct (memcpy _ _ _ _) as [raw|] eqn:E; [|discriminate].
    injection Hw as <-. cbn [RawBuffer]. rewrite Z.add_0_l in E. split.
    + intros i Hi. exact (memcpy_copied _ _ _ _ _ i E Hi).
    + intros i Hi. exact (memcpy_elsewhere _ _ _ _ _ i E Hi).
  - intros b Buffer n Hwf Hn Hs. exact (Write_defined b Buffer n Hwf Hn Hs).
  - intros b b' Buffer n (Hl & _) Hn _ Hlen Hlt. unfold in_unsigned in *.
    apply HasRoom_exact; [lia | lia | lia |]. unfold IO_SIZE. lia.
  - exists HttpSendBuffer.ctor, (replicate (Z.to_nat 65537) Byte.x00), 65537.
    split; [exact HttpSendBuffer.reach_ctor|].
    split; [unfold in_unsigned; lia|].
    split; [rewrite length_replicate; lia|].
    split; [reflexivity|].
    unfold HttpSendBuffer.Write.
    cbn [HttpSendBuffer.ctor RawBuffer QuicBuffer QUIC_BUFFER.Buffer].
    rewrite memcpy_None; [reflexivity|].
    rewrite length_unwritten by (unfold IO_SIZE; lia).
    change (HttpSendBuffer.Length HttpSendBuffer.ctor) with 0.
    unfold IO_SIZE. lia.
Qed.

(** The three bytes of [GET] written to a new buffer. *)
Lemma C10_witness :
  exists b',
    HttpSendBuffer.Write [Byte.x47; Byte.x45; Byte.x54] 3 HttpSendBuffer.ctor = Some b' /\
    HttpSendBuffer.Length b' = 3 /\
    RawBuffer b' !! 2%nat = Some (Some Byte.x54).
Proof.
  assert (Hn : in_unsigned 32 3) by (unfold in_unsigned; lia).
  destruct (proj1 C10_Write_within_RawBuffer HttpSendBuffer.ctor
              [Byte.x47; Byte.x45; Byte.x54] 3 well_formed_ctor Hn
              ltac:(cbn [length]; lia) eq_refl)
    as (b' & Hw & Hlen & _ & _ & Hcopied & _).
  exists b'. split; [exact Hw|]. split; [exact Hlen|].
  exact (Hcopied 2%nat ltac:(lia)).
Defined.

(** * Loads and stores *)

Lemma load_request_store p r w :
  load_request p (store p (ObjRequest r) w) = Some r.
Proof. unfold load_request, store; cbn [heap]. rewrite lookup_insert_eq. reflexivity. Qed.

Lemma load_connection_store p c w :
  load_connection p (store p (ObjConnection c) w) = Some c.
Proof. unfold load_connection, store; cbn [heap]. rewrite lookup_insert_eq. reflexivity. Qed.

Lemma load_connection_free p w : load_connection p (free p w) = None.
Proof. unfold load_connection, free; cbn [heap]. rewrite lookup_delete_eq. reflexivity. Qed.

Lemma operator_new_fresh w : heap w !! operator_new w = None.
Proof. apply not_elem_of_dom. unfold operator_new. apply is_fresh. Qed.

(** * The abort path of a request: claims C1 and C6 *)

Lemma Abort_run this e w r :
  load_request this w = Some r ->
  HttpRequest.Abort this e w = Some (MsQuic (abort_call r e) (flagged this r w)).
Proof.
  intros Hr. unfold HttpRequest.Abort. rewrite Hr. cbn [mbind option_bind].
  rewrite load_request_store. reflexivity.
Qed.

Lemma load_request_after_Abort this r e w :
  load_request this (MsQuic (abort_call r e) (flagged this r w))
  = Some (HttpRequest.set_Shutdown true r).
Proof. unfold flagged. apply load_request_store. Qed.

Lemma ErrorCode_value_inj e1 e2 :
  ErrorCode_value e1 = ErrorCode_value e2 -> e1 = e2.
Proof. destruct e1, e2; simpl; intros E; first [reflexivity | discriminate E]. Qed.

Lemma Abort_seen_run this e w r :
  load_request this w = Some r ->
  HttpRequest.Abort_seen this e w
  = Some (MsQuic (abort_call r e) (flagged this r w),
          [{| seen_call := abort_call r e; seen_heap := heap (flagged this r w) |}]).
Proof.
  intros Hr. unfold HttpRequest.Abort_seen. rewrite Hr. cbn [mbind option_bind].
  rewrite load_request_store. reflexivity.
Qed.

(** C6.  The enumeration has eight codes.  For each of them, [Abort] on a
    live request makes exactly one call to the transport, [StreamShutdown]
    on the stream of that request with the abort flag and the value of the
    code, and it sets [Shutdown] before it makes the call: in the memory the
    transport has before it at the call, the flag of the request is already
    true.  Nothing else changes. *)
Theorem C6_Abort_sets_Shutdown_then_StreamShutdown
    (this : ptr) (ErrorCode : HttpRequestErrorCodes) (w : World) (r : HttpRequest) :
  load_request this w = Some r ->
  ErrorCode ∈ all_HttpRequestErrorCodes /\
  length all_HttpRequestErrorCodes = 8%nat /\
  NoDup (ErrorCode_value <$> all_HttpRequestErrorCodes) /\
  exists w' seen,
    HttpRequest.Abort_seen this ErrorCode w = Some (w', [seen]) /\
    seen_call seen = StreamShutdown (QuicStream r) QUIC_STREAM_SHUTDOWN_FLAG_ABORT
                       (ErrorCode_value ErrorCode) /\
    seen_heap seen !! this = Some (ObjRequest (HttpRequest.set_Shutdown true r)) /\
    Shutdown (HttpRequest.set_Shutdown true r) = true /\
    (forall p, p <> this -> seen_heap seen !! p = heap w !! p) /\
    HttpRequest.Abort this ErrorCode w = Some w' /\
    w' = MsQuic (StreamShutdown (QuicStream r) QUIC_STREAM_SHUTDOWN_FLAG_ABORT
                   (ErrorCode_value ErrorCode)) (flagged this r w) /\
    Shutdown <$> load_request this (flagged this r w) = Some true /\
    calls (flagged this r w) = calls w /\
    calls w' = calls w ++ [StreamShutdown (QuicStream r) QUIC_STREAM_SHUTDOWN_FLAG_ABORT
                             (ErrorCode_value ErrorCode)] /\
    load_request this w' = Some (HttpRequest.set_Shutdown true r) /\
    stdout w' = stdout w /\
    (forall p, p <> this -> heap w' !! p = heap w !! p).
Proof.
  intros Hr. split; [|split; [reflexivity|split]].
  - destruct ErrorCode; unfold all_HttpRequestErrorCodes; set_solver.
  - compute_done.
  - eexists. eexists. split; [apply (Abort_seen_run this ErrorCode w r Hr)|].
    split; [reflexivity|].
    split; [cbn [seen_heap flagged store heap]; apply lookup_insert_eq|].
    split; [reflexivity|].
    split; [intros p Hp; cbn [seen_heap flagged store heap];
            apply lookup_insert_ne; congruence|].
    split; [apply (Abort_run this ErrorCode w r Hr)|].
    split; [reflexivity|].
    split; [unfold flagged; rewrite load_request_store; reflexivity|].
    split; [reflexivity|]. split; [reflexivity|].
    split; [apply load_request_after_Abort|]. split; [reflexivity|].
    intros p Hp. cbn [MsQuic flagged store heap]. apply lookup_insert_ne. congruence.
Qed.

Lemma load_example_request :
  load_request 2%positive example_request_world = Some example_request.
Proof.
  unfold load_request, example_request_world; cbn [heap].
  rewrite lookup_singleton_eq. reflexivity.
Qed.

(** The example request has [Shutdown] not set; at the call it is set. *)
Lemma C6_witness :
  Shutdown example_request = false /\
  exists w' seen,
    HttpRequest.Abort_seen 2%positive HttpRequestFoundDots example_request_world
    = Some (w', [seen]) /\
    seen_call seen = StreamShutdown 7 QUIC_STREAM_SHUTDOWN_FLAG_ABORT 2 /\
    seen_heap seen !! 2%positive
    = Some (ObjRequest (HttpRequest.set_Shutdown true example_request)) /\
    calls w' = [StreamShutdown 7 QUIC_STREAM_SHUTDOWN_FLAG_ABORT 2].
Proof.
  split; [reflexivity|].
  destruct (C6_Abort_sets_Shutdown_then_StreamShutdown 2%positive
              HttpRequestFoundDots example_request_world example_request
              load_example_request)
    as (_ & _ & _ & w' & seen & Hrun & Hcall & Hheap & _ & _ & _ & _ & _ & _ & Hcalls & _).
  exists w', seen. split; [exact Hrun|]. split; [exact Hcall|].
  split; [exact Hheap | exact Hcalls].
Defined.

(** C1, as stated, fails: a second [Abort] is not a no-op.  On a live
    request two invocations put two [StreamShutdown] calls in the log, one
    invocation puts one. *)
Lemma C1_counterexample :
  exists w1 w2,
    HttpRequest.Abort 2%positive HttpRequestNoError example_request_world = Some w1 /\
    HttpRequest.Abort 2%positive HttpRequestNoError w1 = Some w2 /\
    calls w1 = [StreamShutdown 7 QUIC_STREAM_SHUTDOWN_FLAG_ABORT 0] /\
    calls w2 = [StreamShutdown 7 QUIC_STREAM_SHUTDOWN_FLAG_ABORT 0;
                StreamShutdown 7 QUIC_STREAM_SHUTDOWN_FLAG_ABORT 0] /\
    w2 <> w1.
Proof.
  eexists. eexists.
  split; [apply (Abort_run _ _ _ _ load_example_request)|].
  split; [apply Abort_run; apply load_request_after_Abort|].
  split; [reflexivity|]. split; [reflexivity|].
  intros E. apply (f_equal calls) in E. discriminate E.
Qed.

(** C1, amended.  [Abort] has no guard on [Shutdown].  A second invocation
    leaves the request, and every other object, as the first one left them
    (the flag stays set), but it submits a stream-abort request of its own:
    after two invocations the log holds two [StreamShutdown] calls, each
    with the code of its invocation. *)
Theorem C1_Abort_twice_submits_two
    (this : ptr) (e1 e2 : HttpRequestErrorCodes) (w : World) (r : HttpRequest) :
  load_request this w = Some r ->
  exists w1 w2,
    HttpRequest.Abort this e1 w = Some w1 /\
    HttpRequest.Abort this e2 w1 = Some w2 /\
    heap w2 = heap w1 /\
    stdout w2 = stdout w1 /\
    Shutdown <$> load_request this w1 = Some true /\
    Shutdown <$> load_request this w2 = Some true /\
    calls w1 = calls w ++ [StreamShutdown (QuicStream r) QUIC_STREAM_SHUTDOWN_FLAG_ABORT
                             (ErrorCode_value e1)] /\
    calls w2 = calls w ++ [StreamShutdown (QuicStream r) QUIC_STREAM_SHUTDOWN_FLAG_ABORT
                             (ErrorCode_value e1);
                           StreamShutdown (QuicStream r) QUIC_STREAM_SHUTDOWN_FLAG_ABORT
                             (ErrorCode_value e2)].
Proof.
  intros Hr. eexists. eexists.
  split; [apply (Abort_run this e1 w r Hr)|].
  split; [apply Abort_run; apply load_request_after_Abort|].
  split; [cbn [MsQuic flagged store heap]; apply insert_insert_eq|].
  split; [reflexivity|].
  split; [rewrite load_request_after_Abort; reflexivity|].
  split; [rewrite load_request_after_Abort; reflexivity|].
  split; [reflexivity|].
  cbn [MsQuic flagged store calls]. rewrite <- app_assoc. reflexivity.
Qed.

Lemma C1_witness :
  exists w1 w2,
    HttpRequest.Abort 2%positive HttpRequestNotGet example_request_world = Some w1 /\
    HttpRequest.Abort 2%positive HttpRequestPeerAbort w1 = Some w2 /\
    calls w2 = [StreamShutdown 7 QUIC_STREAM_SHUTDOWN_FLAG_ABORT 1;
                StreamShutdown 7 QUIC_STREAM_SHUTDOWN_FLAG_ABORT 6].
Proof.
  destruct (C1_Abort_twice_submits_two 2%positive HttpRequestNotGet
              HttpRequestPeerAbort example_request_world example_request
              load_example_request)
    as (w1 & w2 & H1 & H2 & _ & _ & _ & _ & _ & Hcalls).
  exists w1, w2. split; [exact H1|]. split; [exact H2 | exact Hcalls].
Defined.

(** * The reference count of a connection: claims C2, C5, C9 *)

Lemma pow2_split bits : 1 <= bits -> 2 ^ bits = 2 * 2 ^ (bits - 1).
Proof.
  intros. replace bits with (Z.succ (bits - 1)) at 1 by lia.
  apply Z.pow_succ_r. lia.
Qed.

Lemma wrap_signed_in_signed bits x : 1 <= bits -> in_signed bits (wrap_signed bits x).
Proof.
  intros Hb. unfold in_signed, wrap_signed.
  pose proof (pow2_split bits Hb) as Hp.
  assert (0 < 2 ^ (bits - 1)) by (apply Z.pow_pos_nonneg; lia).
  pose proof (Z.mod_pos_bound (x + 2 ^ (bits - 1)) (2 ^ bits) ltac:(lia)). lia.
Qed.

Lemma wrap_signed_small bits x : 1 <= bits -> in_signed bits x -> wrap_signed bits x = x.
Proof.
  intros Hb Hx. unfold in_signed, wrap_signed in *.
  pose proof (pow2_split bits Hb) as Hp.
  rewrite Z.mod_small by lia. lia.
Qed.

Lemma wrap_signed_add_l bits x y :
  1 <= bits -> wrap_signed bits (wrap_signed bits x + y) = wrap_signed bits (x + y).
Proof.
  intros Hb. unfold wrap_signed. f_equal.
  assert (0 < 2 ^ bits) by (apply Z.pow_pos_nonneg; lia).
  replace ((x + 2 ^ (bits - 1)) mod 2 ^ bits - 2 ^ (bits - 1) + y + 2 ^ (bits - 1))
    with ((x + 2 ^ (bits - 1)) mod 2 ^ bits + y) by lia.
  rewrite Zplus_mod_idemp_l. f_equal. lia.
Qed.

(** Decrementing a [long] gives zero exactly when it held one. *)
Lemma decrement_zero_iff bits v :
  2 <= bits -> in_signed bits v -> (wrap_signed bits (v - 1) = 0 <-> v = 1).
Proof.
  intros Hb Hv. unfold in_signed, wrap_signed in *.
  pose proof (pow2_split bits ltac:(lia)) as Hp.
  pose proof (pow2_split (bits - 1) ltac:(lia)) as Hq.
  assert (0 < 2 ^ (bits - 1 - 1)) by (apply Z.pow_pos_nonneg; lia).
  destruct (Z.eq_dec v (- 2 ^ (bits - 1))) as [->|Hne].
  - replace (- 2 ^ (bits - 1) - 1 + 2 ^ (bits - 1)) with (-1) by lia.
    replace (-1) with (2 ^ bits - 1 + (-1) * 2 ^ bits) by lia.
    rewrite Z.mod_add by lia. rewrite Z.mod_small by lia. lia.
  - rewrite Z.mod_small by lia. lia.
Qed.

Section ConnectionProperties.
Context `{Platform}.

Lemma long_bits_pos : 2 <= long_bits.
Proof. pose proof long_bits_min. lia. Qed.

Lemma one_in_long : in_signed long_bits 1.
Proof.
  unfold in_signed. pose proof long_bits_min as Hb.
  assert (2 ^ 31 <= 2 ^ (long_bits - 1)) by (apply Z.pow_le_mono_r; lia). lia.
Qed.

Lemma load_connection_new connection w0 :
  load_connection (HttpConnection.new connection w0).1
                  (HttpConnection.new connection w0).2
  = Some {| QuicConnection := connection; RefCount := 1 |}.
Proof. unfold HttpConnection.new. cbn. apply load_connection_store. Qed.

Lemma AddRef_live this w c :
  load_connection this w = Some c ->
  HttpConnection.AddRef this w =
    Some (store this (ObjConnection
            (HttpConnection.set_RefCount
               (HttpConnection.InterlockedIncrement (RefCount c)) c)) w).
Proof. intros Hc. unfold HttpConnection.AddRef. rewrite Hc. reflexivity. Qed.

Lemma Release_live_nonzero this w c :
  load_connection this w = Some c ->
  HttpConnection.InterlockedDecrement (RefCount c) <> 0 ->
  HttpConnection.Release this w =
    Some (store this (ObjConnection
            (HttpConnection.set_RefCount
               (HttpConnection.InterlockedDecrement (RefCount c)) c)) w).
Proof.
  intros Hc Hv. unfold HttpConnection.Release. rewrite Hc. cbn [mbind option_bind].
  destruct (Z.eqb_spec (HttpConnection.InterlockedDecrement (RefCount c)) 0);
    [contradiction | reflexivity].
Qed.

Lemma Release_live_zero this w c :
  load_connection this w = Some c ->
  HttpConnection.InterlockedDecrement (RefCount c) = 0 ->
  HttpConnection.Release this w =
    Some (free this
            (MsQuic (ConnectionClose (QuicConnection c))
               (store this (ObjConnection (HttpConnection.set_RefCount 0 c)) w))).
Proof.
  intros Hc Hv. unfold HttpConnection.Release. rewrite Hc. cbn [mbind option_bind].
  rewrite Hv. cbn [Z.eqb]. unfold HttpConnection.delete_.
  rewrite load_connection_store. reflexivity.
Qed.

Lemma apply_RefOp_dead this op w :
  load_connection this w = None -> HttpConnection.apply_RefOp this op w = None.
Proof.
  intros Hc. destruct op; cbn [HttpConnection.apply_RefOp];
    unfold HttpConnection.AddRef, HttpConnection.Release; rewrite Hc; reflexivity.
Qed.

(** One call on a live connection: what it stores and what it logs. *)
Lemma apply_RefOp_live this op w c :
  load_connection this w = Some c ->
  let v := match op with
           | HttpConnection.OpAddRef => HttpConnection.InterlockedIncrement (RefCount c)
           | HttpConnection.OpRelease => HttpConnection.InterlockedDecrement (RefCount c)
           end in
  let destroyed := HttpConnection.is_OpRelease op && (v =? 0) in
  exists w',
    HttpConnection.apply_RefOp this op w = Some w' /\
    load_connection this w' =
      (if destroyed then None else Some (HttpConnection.set_RefCount v c)) /\
    calls w' = calls w ++ (if destroyed then [ConnectionClose (QuicConnection c)] else []) /\
    stdout w' = stdout w.
Proof.
  intros Hc. destruct op; cbn [HttpConnection.is_OpRelease andb HttpConnection.apply_RefOp].
  - eexists. split; [apply (AddRef_live this w c Hc)|].
    split; [apply load_connection_store|].
    split; [cbn [store calls]; rewrite app_nil_r|]; reflexivity.
  - destruct (Z.eqb_spec (HttpConnection.InterlockedDecrement (RefCount c)) 0) as [Hz|Hz].
    + eexists. split; [apply (Release_live_zero this w c Hc Hz)|].
      split; [apply load_connection_free|]. split; reflexivity.
    + eexists. split; [apply (Release_live_nonzero this w c Hc Hz)|].
      split; [apply load_connection_store|].
      split; [cbn [store calls]; rewrite app_nil_r|]; reflexivity.
Qed.

(** While the connection is alive after a run of calls, it was alive all
    along, the transport was not called, and the count is the initial one
    plus the calls to [AddRef] minus the calls to [Release]. *)
Lemma run_RefOps_live this ops :
  forall w w' c',
    HttpConnection.run_RefOps this ops w = Some w' ->
    load_connection this w' = Some c' ->
    exists c,
      load_connection this w = Some c /\
      QuicConnection c' = QuicConnection c /\
      (in_signed long_bits (RefCount c) ->
       RefCount c' =
         wrap_signed long_bits
           (RefCount c + HttpConnection.count_ops HttpConnection.is_OpAddRef ops
                       - HttpConnection.count_ops HttpConnection.is_OpRelease ops)) /\
      calls w' = calls w.
Proof.
  pose proof long_bits_pos as Hb.
  induction ops as [|op rest IH]; intros w w' c' Hrun Hc'.
  - cbn [HttpConnection.run_RefOps] in Hrun. injection Hrun as <-.
    exists c'. split; [assumption|]. split; [reflexivity|].
    split; [|reflexivity]. intros Hs. cbn [HttpConnection.count_ops].
    rewrite wrap_signed_small; [lia | lia | ].
    replace (RefCount c' + 0 - 0) with (RefCount c') by lia. assumption.
  - cbn [HttpConnection.run_RefOps] in Hrun.
    destruct (HttpConnection.apply_RefOp this op w) as [w1|] eqn:Hop; [|discriminate].
    cbn [mbind option_bind] in Hrun.
    destruct (IH w1 w' c' Hrun Hc') as (c1 & Hc1 & Hq1 & Hcount1 & Hcalls1).
    destruct (load_connection this w) as [c|] eqn:Hc.
    2:{ rewrite (apply_RefOp_dead this op w Hc) in Hop. discriminate. }
    destruct (apply_RefOp_live this op w c Hc) as (w1' & Hop' & Hload & Hcalls & _).
    rewrite Hop in Hop'. injection Hop' as <-.
    rewrite Hc1 in Hload.
    destruct (HttpConnection.is_OpRelease op && _) eqn:Hd; [discriminate|].
    injection Hload as ->. rewrite app_nil_r in Hcalls.
    exists c. split; [reflexivity|]. split; [assumption|].
    split; [|congruence]. intros Hs.
    rewrite Hcount1 by
      (destruct op; cbn [HttpConnection.set_RefCount RefCount];
       apply wrap_signed_in_signed; lia).
    cbn [HttpConnection.count_ops HttpConnection.set_RefCount RefCount].
    destruct op; cbn [HttpConnection.is_OpAddRef HttpConnection.is_OpRelease];
      unfold HttpConnection.InterlockedIncrement, HttpConnection.InterlockedDecrement;
      rewrite <- Z.add_sub_assoc, wrap_signed_add_l by lia; f_equal; lia.
Qed.

End ConnectionProperties.

(** C2.  Take a connection just created by [new HttpConnection] (count 1)
    and any sequence of [AddRef] and [Release] calls after which it is still
    alive.  Then no call so far has touched the transport, the count is
    [1 + #AddRef - #Release], and the next call destroys the connection if
    and only if it is a [Release] whose decrement gives zero, that is, a
    [Release] at count one.  Destruction calls [ConnectionClose] on the handle
    the connection owns, once; no other call logs anything, and any call
    after the destruction is undefined.  The handler answers the
    shutdown-complete event with exactly that [Release]. *)
Theorem C2_Release_destroys_exactly_at_zero `{Platform}
    (connection : HQUIC) (w0 : World)
    (pre : list HttpConnection.RefOp) (op : HttpConnection.RefOp)
    (w : World) (c : HttpConnection) :
  let this := (HttpConnection.new connection w0).1 in
  let w1 := (HttpConnection.new connection w0).2 in
  HttpConnection.run_RefOps this pre w1 = Some w ->
  load_connection this w = Some c ->
  load_connection this w1 = Some {| QuicConnection := connection; RefCount := 1 |} /\
  QuicConnection c = connection /\
  RefCount c =
    wrap_signed long_bits
      (1 + HttpConnection.count_ops HttpConnection.is_OpAddRef pre
         - HttpConnection.count_ops HttpConnection.is_OpRelease pre) /\
  calls w = calls w1 /\
  (HttpConnection.InterlockedDecrement (RefCount c) = 0 <-> RefCount c = 1) /\
  (exists w',
      HttpConnection.apply_RefOp this op w = Some w' /\
      (load_connection this w' = None <->
       op = HttpConnection.OpRelease /\
       HttpConnection.InterlockedDecrement (RefCount c) = 0) /\
      calls w' = calls w ++ match load_connection this w' with
                            | Some _ => []
                            | None => [ConnectionClose connection]
                            end /\
      (load_connection this w' = None ->
       forall op', HttpConnection.apply_RefOp this op' w' = None)) /\
  (forall Connection_,
      HttpConnection.QuicCallbackHandler Connection_ this
        QUIC_CONNECTION_EVENT_SHUTDOWN_COMPLETE w
      = (fun w' => (QUIC_STATUS_SUCCESS, w')) <$> HttpConnection.Release this w).
Proof.
  intros this w1 Hrun Hc. pose proof long_bits_pos as Hb.
  pose proof (load_connection_new connection w0) as Hnew.
  fold this w1 in Hnew.
  destruct (run_RefOps_live this pre w1 w c Hrun Hc) as (c0 & Hc0 & Hq & Hcount & Hcalls).
  rewrite Hnew in Hc0. injection Hc0 as <-.
  cbn [QuicConnection RefCount] in Hq, Hcount.
  specialize (Hcount one_in_long).
  split; [exact Hnew|]. split; [exact Hq|]. split; [exact Hcount|].
  split; [exact Hcalls|].
  assert (Hrange : in_signed long_bits (RefCount c))
    by (rewrite Hcount; apply wrap_signed_in_signed; lia).
  split; [apply decrement_zero_iff; [lia | exact Hrange]|].
  split.
  - destruct (apply_RefOp_live this op w c Hc) as (w' & Hop & Hload & Hlog & _).
    exists w'. split; [exact Hop|]. rewrite Hload, Hlog, Hq.
    destruct op; cbn [HttpConnection.is_OpRelease andb].
    + split; [|split].
      * split; [discriminate | intros [E _]; discriminate E].
      * reflexivity.
      * discriminate.
    + destruct (Z.eqb_spec (HttpConnection.InterlockedDecrement (RefCount c)) 0) as [Hz|Hz].
      * split; [|split].
        -- split; [intros _; split; [reflexivity | exact Hz] | reflexivity].
        -- reflexivity.
        -- intros _ op'. apply apply_RefOp_dead. exact Hload.
      * split; [|split].
        -- split; [discriminate | intros [_ E]; contradiction].
        -- reflexivity.
        -- discriminate.
  - intros Connection_. cbn [HttpConnection.QuicCallbackHandler].
    destruct (HttpConnection.Release this w); reflexivity.
Qed.

(** On Windows: a connection on handle 5 that was referenced once more and
    released once is at count one, and the next [Release] destroys it. *)
Lemma C2_witness :
  let this := (HttpConnection.new 5 empty_world).1 in
  let w1 := (HttpConnection.new 5 empty_world).2 in
  exists w c w',
    @HttpConnection.run_RefOps Windows_x64 this
      [HttpConnection.OpAddRef; HttpConnection.OpRelease] w1 = Some w /\
    load_connection this w = Some c /\
    RefCount c = 1 /\
    @HttpConnection.apply_RefOp Windows_x64 this HttpConnection.OpRelease w = Some w' /\
    load_connection this w' = None /\
    calls w' = calls w1 ++ [ConnectionClose 5].
Proof.
  intros this w1.
  pose proof (load_connection_new 5 empty_world) as H1. fold this w1 in H1.
  pose proof (@AddRef_live Windows_x64 this w1 _ H1) as HA.
  match type of HA with _ = Some ?x => set (wA := x) in HA end.
  assert (HlA : load_connection this wA = Some
             (HttpConnection.set_RefCount
                (@HttpConnection.InterlockedIncrement Windows_x64 1)
                {| QuicConnection := 5; RefCount := 1 |}))
    by apply load_connection_store.
  pose proof (@Release_live_nonzero Windows_x64 this wA _ HlA
                ltac:(vm_compute; discriminate)) as HR.
  match type of HR with _ = Some ?x => set (wR := x) in HR end.
  assert (Hrun : @HttpConnection.run_RefOps Windows_x64 this
                   [HttpConnection.OpAddRef; HttpConnection.OpRelease] w1 = Some wR).
  { cbn [HttpConnection.run_RefOps HttpConnection.apply_RefOp].
    rewrite HA. cbn [mbind option_bind]. rewrite HR. reflexivity. }
  assert (HlR : load_connection this wR = Some {| QuicConnection := 5; RefCount := 1 |})
    by apply load_connection_store.
  destruct (@C2_Release_destroys_exactly_at_zero Windows_x64 5 empty_world
              [HttpConnection.OpAddRef; HttpConnection.OpRelease]
              HttpConnection.OpRelease wR _ Hrun HlR)
    as (_ & _ & _ & Hcalls & _ & (w' & Hop & Hdead & Hlog & _) & _).
  assert (Hd : load_connection this w' = None)
    by (apply Hdead; split; reflexivity).
  exists wR, {| QuicConnection := 5; RefCount := 1 |}, w'.
  split; [exact Hrun|]. split; [exact HlR|]. split; [reflexivity|].
  split; [exact Hop|]. split; [exact Hd|].
  rewrite Hlog. fold this. rewrite Hd, Hcalls. reflexivity.
Defined.

Lemma peer_stream_started_run `{Platform} Connection_ pThis Stream Flags_ w :
  HttpConnection.QuicCallbackHandler Connection_ pThis
    (QUIC_CONNECTION_EVENT_PEER_STREAM_STARTED Stream Flags_) w
  = Some (QUIC_STATUS_SUCCESS,
          (HttpRequest.new pThis Stream (HttpConnection.Unidirectional_of Flags_) w).2).
Proof.
  cbn [HttpConnection.QuicCallbackHandler].
  destruct (HttpRequest.new _ _ _ _). reflexivity.
Qed.

Lemma new_request_run connection stream Unidirectional w :
  HttpRequest.new connection stream Unidirectional w =
  (operator_new w,
   store (operator_new w)
     (ObjRequest {| Connection := connection; QuicStream := stream; File := None;
                    Buffer := HttpSendBuffer.ctor; Shutdown := false;
                    WriteHttp11Header := false |})
     (MsQuic (SetCallbackHandler stream
                (if Unidirectional then HttpRequest_QuicUnidiCallbackHandler
                 else HttpRequest_QuicBidiCallbackHandler)
                (operator_new w)) w)).
Proof. reflexivity. Qed.

(** C5.  The handler answers a peer-stream-started event on a live
    connection by putting one new request in the heap; the connection object
    is the same afterwards, so its count is what it was. *)
Theorem C5_peer_stream_started_keeps_RefCount `{Platform}
    (Connection_ : HQUIC) (pThis : ptr) (Stream : HQUIC) (Flags_ : Z)
    (w : World) (c : HttpConnection) :
  load_connection pThis w = Some c ->
  exists w' p r,
    HttpConnection.QuicCallbackHandler Connection_ pThis
      (QUIC_CONNECTION_EVENT_PEER_STREAM_STARTED Stream Flags_) w
    = Some (QUIC_STATUS_SUCCESS, w') /\
    heap w !! p = None /\
    heap w' = <[p := ObjRequest r]> (heap w) /\
    Connection r = pThis /\
    load_connection pThis w' = Some c /\
    RefCount <$> load_connection pThis w' = RefCount <$> load_connection pThis w.
Proof.
  intros Hc. rewrite peer_stream_started_run, new_request_run. cbn [snd].
  eexists. exists (operator_new w). eexists.
  split; [reflexivity|]. split; [apply operator_new_fresh|].
  split; [reflexivity|]. split; [reflexivity|].
  assert (Hload : forall o m, load_connection pThis (store (operator_new w) o (MsQuic m w))
                              = Some c).
  { intros o m. unfold load_connection, store. cbn [heap MsQuic].
    rewrite lookup_insert_ne.
    - exact Hc.
    - intros E. pose proof (operator_new_fresh w) as Hf. rewrite E in Hf.
      unfold load_connection in Hc. rewrite Hf in Hc. discriminate Hc. }
  split; [apply Hload|]. rewrite Hload, Hc. reflexivity.
Qed.

Lemma load_example_connection :
  load_connection 1%positive example_connection_world
  = Some {| QuicConnection := 5; RefCount := 3 |}.
Proof.
  unfold load_connection, example_connection_world; cbn [heap].
  rewrite lookup_singleton_eq. reflexivity.
Qed.

Lemma C5_witness :
  exists w',
    @HttpConnection.QuicCallbackHandler Linux_x64 5 1%positive
      (QUIC_CONNECTION_EVENT_PEER_STREAM_STARTED 8 0) example_connection_world
    = Some (0, w') /\
    RefCount <$> load_connection 1%positive w' = Some 3.
Proof.
  destruct (@C5_peer_stream_started_keeps_RefCount Linux_x64 5 1%positive 8 0
              example_connection_world _ load_example_connection)
    as (w' & p & r & Hrun & _ & _ & _ & Hload & _).
  exists w'. split; [exact Hrun|]. rewrite Hload. reflexivity.
Defined.

(** C9.  A peer-stream-started event puts exactly one new object in the
    heap, a request whose back-reference is the connection the handler was
    called for and whose stream is the stream of the event; the callback
    registered for the stream is the unidirectional one if and only if the
    flags of the event have the unidirectional bit.  A connected event on a
    live connection sends the final resumption ticket on the handle of the
    connection and leaves the heap as it was. *)
Theorem C9_handler_spawns_one_request `{Platform}
    (Connection_ : HQUIC) (pThis : ptr) (w : World) :
  (forall (Stream : HQUIC) (Flags_ : Z),
      exists w' p r variant,
        HttpConnection.QuicCallbackHandler Connection_ pThis
          (QUIC_CONNECTION_EVENT_PEER_STREAM_STARTED Stream Flags_) w
        = Some (QUIC_STATUS_SUCCESS, w') /\
        heap w !! p = None /\
        heap w' = <[p := ObjRequest r]> (heap w) /\
        size (heap w') = S (size (heap w)) /\
        Connection r = pThis /\
        QuicStream r = Stream /\
        Shutdown r = false /\
        calls w' = calls w ++ [SetCallbackHandler Stream variant p] /\
        (variant = HttpRequest_QuicUnidiCallbackHandler <->
         Z.land Flags_ QUIC_STREAM_OPEN_FLAG_UNIDIRECTIONAL <> 0) /\
        (variant = HttpRequest_QuicBidiCallbackHandler <->
         Z.land Flags_ QUIC_STREAM_OPEN_FLAG_UNIDIRECTIONAL = 0)) /\
  (forall c : HttpConnection,
      load_connection pThis w = Some c ->
      exists w',
        HttpConnection.QuicCallbackHandler Connection_ pThis
          QUIC_CONNECTION_EVENT_CONNECTED w
        = Some (QUIC_STATUS_SUCCESS, w') /\
        calls w' = calls w ++ [ConnectionSendResumptionTicket (QuicConnection c)
                                 QUIC_SEND_RESUMPTION_FLAG_FINAL 0 None] /\
        heap w' = heap w).
Proof.
  split.
  - intros Stream Flags_. rewrite peer_stream_started_run, new_request_run. cbn [snd].
    eexists. exists (operator_new w). eexists. eexists.
    split; [reflexivity|]. split; [apply operator_new_fresh|].
    split; [reflexivity|].
    split; [cbn [store heap MsQuic]; apply map_size_insert_None, operator_new_fresh|].
    split; [reflexivity|]. split; [reflexivity|]. split; [reflexivity|].
    split; [reflexivity|].
    unfold HttpConnection.Unidirectional_of.
    destruct (Z.eqb_spec (Z.land Flags_ QUIC_STREAM_OPEN_FLAG_UNIDIRECTIONAL) 0) as [E|E];
      cbn [negb]; split; split; intros; first [congruence | discriminate | reflexivity].
  - intros c Hc. cbn [HttpConnection.QuicCallbackHandler]. rewrite Hc.
    eexists. split; [reflexivity|]. split; reflexivity.
Qed.

Lemma C9_witness :
  exists w' p,
    @HttpConnection.QuicCallbackHandler Windows_x64 5 1%positive
      (QUIC_CONNECTION_EVENT_PEER_STREAM_STARTED 8 3) example_connection_world
    = Some (0, w') /\
    calls w' = [SetCallbackHandler 8 HttpRequest_QuicUnidiCallbackHandler p] /\
  exists w'',
    @HttpConnection.QuicCallbackHandler Windows_x64 5 1%positive
      QUIC_CONNECTION_EVENT_CONNECTED example_connection_world
    = Some (0, w'') /\
    calls w'' = [ConnectionSendResumptionTicket 5 QUIC_SEND_RESUMPTION_FLAG_FINAL 0 None].
Proof.
  destruct (@C9_handler_spawns_one_request Windows_x64 5 1%positive
              example_connection_world) as [Hstream Hconnected].
  destruct (Hstream 8 3) as (w' & p & r & variant & Hrun & _ & _ & _ & _ & _ & _
                             & Hcalls & Huni & _).
  destruct (Hconnected _ load_example_connection) as (w'' & Hrun' & Hcalls' & _).
  exists w', p. split; [exact Hrun|].
  split.
  - rewrite Hcalls. rewrite (proj2 Huni); [reflexivity|]. vm_compute. discriminate.
  - exists w''. split; [exact Hrun' | exact Hcalls'].
Defined.

(** * Start-up: claims C7 and C8 *)

Lemma EXIT_ON_FAILURE_status `{Platform} (T : Transport) site c w :
  EXIT_ON_FAILURE site (MsQuic_status T c) w =
    if QUIC_FAILED (status (T (calls w ++ [c])))
    then Exited 1 (printf (diagnostic site) (MsQuic c w))
    else Returned tt (MsQuic c w).
Proof.
  unfold EXIT_ON_FAILURE, MsQuic_status, mbind, Startup_bind. cbn [fst snd MsQuic calls].
  destruct (QUIC_FAILED _); reflexivity.
Qed.

Lemma EXIT_ON_FAILURE_open `{Platform} (T : Transport) site c w :
  EXIT_ON_FAILURE site (MsQuic_open T c) w =
    if QUIC_FAILED (status (T (calls w ++ [c])))
    then Exited 1 (printf (diagnostic site) (MsQuic c w))
    else Returned (out_handle (T (calls w ++ [c]))) (MsQuic c w).
Proof.
  unfold EXIT_ON_FAILURE, MsQuic_open, mbind, Startup_bind. cbn [fst snd MsQuic calls].
  destruct (QUIC_FAILED _); reflexivity.
Qed.

(** The constructor of the session, step by step. *)
Lemma HttpSession_ctor_run `{Platform}
    (T : Transport) (Registration : HQUIC) (AlpnBuffers : list (list Byte.byte))
    (AlpnBufferCount : Z) (LocalAddress : QUIC_ADDR) (w : World) :
  let plan := startup_plan T Registration AlpnBuffers AlpnBufferCount LocalAddress w in
  let failed := fun k : nat => QUIC_FAILED (step_status T w plan k) in
  HttpSession.ctor T Registration AlpnBuffers AlpnBufferCount LocalAddress w =
    if failed 0%nat then Exited 1 (world_after_failure w plan 0 Site_SessionOpen)
    else if failed 1%nat then Exited 1 (world_after_failure w plan 1 Site_SetParam_PeerBidi)
    else if failed 2%nat then Exited 1 (world_after_failure w plan 2 Site_SetParam_PeerUnidi)
    else if failed 3%nat then Exited 1 (world_after_failure w plan 3 Site_ListenerOpen)
    else if failed 4%nat then Exited 1 (world_after_failure w plan 4 Site_ListenerStart)
    else Returned
           {| Session := opened_session T Registration AlpnBuffers AlpnBufferCount w;
              Server := operator_new w |}
           {| calls := calls w ++ plan;
              stdout := stdout w;
              heap := <[operator_new w :=
                          ObjServer {| QuicListener :=
                            opened_listener T Registration AlpnBuffers
                              AlpnBufferCount w |}]> (heap w) |}.
Proof.
  intros plan failed.
  unfold failed, step_status, plan, startup_plan, opened_listener,
    stream_count_configuration, opened_session, world_after_failure.
  cbn [take app].
  unfold HttpSession.ctor.
  unfold mbind at 1. unfold Startup_bind at 1.
  rewrite EXIT_ON_FAILURE_open. norm_world.
  destruct (QUIC_FAILED _); [reflexivity|].
  unfold mbind at 1. unfold Startup_bind at 1.
  rewrite EXIT_ON_FAILURE_status. norm_world.
  unfold uint16, wrap, MAX_HTTP_REQUESTS_PER_CONNECTION, HttpSession.sizeof_uint16_t.
  change (100 mod 2 ^ 16) with 100. change (1 mod 2 ^ 16) with 1.
  destruct (QUIC_FAILED _); [reflexivity|].
  unfold mbind at 1. unfold Startup_bind at 1.
  rewrite EXIT_ON_FAILURE_status. norm_world.
  destruct (QUIC_FAILED _); [reflexivity|].
  unfold mbind at 1. unfold Startup_bind at 1.
  unfold HttpServer.new, HttpServer.ctor.
  unfold mbind at 1. unfold Startup_bind at 1.
  rewrite EXIT_ON_FAILURE_open. norm_world.
  unfold operator_new at 1 2 3. cbn [heap]. fold (operator_new w).
  destruct (QUIC_FAILED _); [reflexivity|].
  unfold mbind at 1. unfold Startup_bind at 1.
  rewrite EXIT_ON_FAILURE_status. norm_world.
  destruct (QUIC_FAILED _); reflexivity.
Qed.

Lemma Site_text_inj s1 s2 : Site_text s1 = Site_text s2 -> s1 = s2.
Proof. destruct s1, s2; intros E; first [reflexivity | discriminate E]. Qed.

Lemma Site_span_disjoint s1 s2 (line : Z) :
  Site_first_line s1 <= line <= Site_last_line s1 ->
  Site_first_line s2 <= line <= Site_last_line s2 -> s1 = s2.
Proof. destruct s1, s2; cbn; intros; first [reflexivity | lia]. Qed.

(** C7.  How far the constructor of the session gets with the two
    stream-count parameters is fixed by the answers of the transport and by
    nothing else.  Once the session is open the constructor sets the
    bidirectional count, to 100 (the value of
    [MAX_HTTP_REQUESTS_PER_CONNECTION], as a two-byte integer); once that
    call succeeded it sets the unidirectional count, to 1; each on the
    session it opened, each once, in this order, and it makes no other
    [SetParam] call.  A constructor that returns has made both, and it
    returns whenever no step fails.  The values do not depend on any
    argument or answer. *)
Theorem C7_session_sets_stream_counts_once `{Platform}
    (T : Transport) (Registration : HQUIC) (AlpnBuffers : list (list Byte.byte))
    (AlpnBufferCount : Z) (LocalAddress : QUIC_ADDR) (w : World) :
  let plan := startup_plan T Registration AlpnBuffers AlpnBufferCount LocalAddress w in
  let failed := fun k : nat => QUIC_FAILED (step_status T w plan k) in
  let Session_ := opened_session T Registration AlpnBuffers AlpnBufferCount w in
  let bidi := SetParam Session_ QUIC_PARAM_LEVEL_SESSION
                QUIC_PARAM_SESSION_PEER_BIDI_STREAM_COUNT 2 100 in
  let unidi := SetParam Session_ QUIC_PARAM_LEVEL_SESSION
                 QUIC_PARAM_SESSION_PEER_UNIDI_STREAM_COUNT 2 1 in
  let run := HttpSession.ctor T Registration AlpnBuffers AlpnBufferCount LocalAddress w in
  let after := match run with Returned _ w' => w' | Exited _ w' => w' end in
  MAX_HTTP_REQUESTS_PER_CONNECTION = 100 /\
  (exists made,
      calls after = calls w ++ made /\
      List.filter is_SetParam made =
        if failed 0%nat then []
        else if failed 1%nat then [bidi]
        else [bidi; unidi]) /\
  (forall s w', run = Returned s w' ->
      Session s = Session_ /\
      exists made, calls w' = calls w ++ made /\
                   List.filter is_SetParam made = [bidi; unidi]) /\
  ((forall k, (k < 5)%nat -> failed k = false) -> exists s w', run = Returned s w').
Proof.
  intros plan failed Session_ bidi unidi run after.
  split; [reflexivity|].
  assert (Hrun : run =
    if failed 0%nat then Exited 1 (world_after_failure w plan 0 Site_SessionOpen)
    else if failed 1%nat then Exited 1 (world_after_failure w plan 1 Site_SetParam_PeerBidi)
    else if failed 2%nat then Exited 1 (world_after_failure w plan 2 Site_SetParam_PeerUnidi)
    else if failed 3%nat then Exited 1 (world_after_failure w plan 3 Site_ListenerOpen)
    else if failed 4%nat then Exited 1 (world_after_failure w plan 4 Site_ListenerStart)
    else Returned
           {| Session := Session_; Server := operator_new w |}
           {| calls := calls w ++ plan;
              stdout := stdout w;
              heap := <[operator_new w :=
                          ObjServer {| QuicListener :=
                            opened_listener T Registration AlpnBuffers
                              AlpnBufferCount w |}]> (heap w) |})
    by apply HttpSession_ctor_run.
  split; [|split].
  - unfold after. rewrite Hrun.
    destruct (failed 0%nat); [exists (take 1 plan); split; reflexivity|].
    destruct (failed 1%nat); [exists (take 2 plan); split; reflexivity|].
    destruct (failed 2%nat); [exists (take 3 plan); split; reflexivity|].
    destruct (failed 3%nat); [exists (take 4 plan); split; reflexivity|].
    destruct (failed 4%nat); [exists (take 5 plan); split; reflexivity|].
    exists plan. split; reflexivity.
  - intros s w'. rewrite Hrun.
    destruct (failed 0%nat); [discriminate|].
    destruct (failed 1%nat); [discriminate|].
    destruct (failed 2%nat); [discriminate|].
    destruct (failed 3%nat); [discriminate|].
    destruct (failed 4%nat); [discriminate|].
    intros [= <- <-]. split; [reflexivity|]. exists plan. split; reflexivity.
  - intros Hok. rewrite Hrun, !Hok by lia. eexists. eexists. reflexivity.
Qed.

(** On Linux, with a transport that accepts every call: the constructor
    returns and both parameters were set on the session it opened. *)
Lemma C7_witness :
  exists s w' made,
    @HttpSession.ctor Linux_x64 always_succeeds 9 [[Byte.x68; Byte.x71]] 1 0 empty_world
    = Returned s w' /\
    calls w' = calls empty_world ++ made /\
    List.filter is_SetParam made =
      [SetParam 42 QUIC_PARAM_LEVEL_SESSION QUIC_PARAM_SESSION_PEER_BIDI_STREAM_COUNT 2 100;
       SetParam 42 QUIC_PARAM_LEVEL_SESSION QUIC_PARAM_SESSION_PEER_UNIDI_STREAM_COUNT 2 1].
Proof.
  destruct (@C7_session_sets_stream_counts_once Linux_x64 always_succeeds 9
              [[Byte.x68; Byte.x71]] 1 0 empty_world) as (_ & _ & Hret & Hok).
  destruct Hok as (s & w' & Hrun); [intros k _; reflexivity|].
  destruct (Hret s w' Hrun) as (_ & made & Hcalls & Hset).
  exists s, w', made. split; [exact Hrun|]. split; [exact Hcalls | exact Hset].
Defined.

(** C8.  Let step [k] of the start-up sequence (session open, the two
    stream-count parameters, listener open, listener start) be the first
    whose status is a failure.  Then the constructor of the session leaves
    through [exit(1)]; the calls made are the steps up to and including
    step [k] and no further one; exactly one line was printed, with the
    file, a line number inside the failing invocation and its text, which
    tell the five invocations apart; the heap is untouched. *)
Theorem C8_startup_failure_exits `{Platform}
    (T : Transport) (Registration : HQUIC) (AlpnBuffers : list (list Byte.byte))
    (AlpnBufferCount : Z) (LocalAddress : QUIC_ADDR) (w : World)
    (k : nat) (site : Site) :
  let plan := startup_plan T Registration AlpnBuffers AlpnBufferCount LocalAddress w in
  startup_sites !! k = Some site ->
  (forall j, (j < k)%nat -> QUIC_FAILED (step_status T w plan j) = false) ->
  QUIC_FAILED (step_status T w plan k) = true ->
  HttpSession.ctor T Registration AlpnBuffers AlpnBufferCount LocalAddress w
  = Exited 1
      {| calls := calls w ++ take (S k) plan;
         stdout := stdout w ++
           [{| format := "%s:%d %s failed!" +:+ newline;
               args := [ArgString FILE_; ArgInt (LINE_ site);
                        ArgString (Site_text site)] |}];
         heap := heap w |} /\
  length (take (S k) plan) = S k /\
  Site_first_line site <= LINE_ site <= Site_last_line site /\
  (forall site', Site_text site' = Site_text site -> site' = site) /\
  (forall site', Site_first_line site <= LINE_ site' <= Site_last_line site ->
                 site' = site).
Proof.
  intros plan Hsite Hbefore Hfail.
  split; [|split; [|split; [apply LINE_within|split]]].
  - rewrite HttpSession_ctor_run. fold plan.
    do 5 (destruct k as [|k];
          [ injection Hsite as <-;
            rewrite ?Hbefore by lia; rewrite Hfail; reflexivity
          | try (rewrite (Hbefore 0%nat) by lia) ]).
    discriminate Hsite.
  - do 5 (destruct k as [|k]; [reflexivity|]). discriminate Hsite.
  - intros site'. apply Site_text_inj.
  - intros site' Hline. apply (Site_span_disjoint site' site (LINE_ site'));
      [apply LINE_within | exact Hline].
Qed.

Lemma C8_witness :
  @HttpSession.ctor Linux_x64 third_call_fails 9 [[Byte.x68; Byte.x71]] 1 0 empty_world
  = Exited 1
      {| calls := [SessionOpen 9 [[Byte.x68; Byte.x71]] 1 None;
                   SetParam 42 QUIC_PARAM_LEVEL_SESSION
                     QUIC_PARAM_SESSION_PEER_BIDI_STREAM_COUNT 2 100;
                   SetParam 42 QUIC_PARAM_LEVEL_SESSION
                     QUIC_PARAM_SESSION_PEER_UNIDI_STREAM_COUNT 2 1];
         stdout := [{| format := "%s:%d %s failed!" +:+ newline;
                       args := [ArgString "InteropServer.h"; ArgInt 235;
                                ArgString (Site_text Site_SetParam_PeerUnidi)] |}];
         heap := ∅ |}.
Proof.
  refine (proj1 (@C8_startup_failure_exits Linux_x64 third_call_fails 9
                   [[Byte.x68; Byte.x71]] 1 0 empty_world 2%nat
                   Site_SetParam_PeerUnidi _ _ _)).
  - reflexivity.
  - intros j Hj. destruct j as [|[|j]]; [reflexivity | reflexivity | lia].
  - reflexivity.
Defined.

(** * Further properties of the send buffer *)

(** For a size that fits in 32 bits the sum in [HasRoom] is exact. *)
Lemma HasRoom_32 b n :
  HttpSendBuffer.well_formed b -> in_unsigned 32 n ->
  HttpSendBuffer.HasRoom n b = (HttpSendBuffer.Length b + n <? IO_SIZE).
Proof.
  intros (Hl & _) Hn. unfold in_unsigned in *.
  unfold HttpSendBuffer.HasRoom, uint64. rewrite wrap_small by lia.
  f_equal. lia.
Qed.

(** X1.  A full buffer has no room for any 32-bit size, not even for zero
    bytes; as long as the length does not exceed the capacity, [IsFull] is
    the negation of [HasRoom(0)]. *)
Theorem X1_IsFull_is_no_room_for_zero (b : HttpSendBuffer) :
  HttpSendBuffer.well_formed b ->
  (HttpSendBuffer.IsFull b = true ->
   forall n, in_unsigned 32 n -> HttpSendBuffer.HasRoom n b = false) /\
  (HttpSendBuffer.Length b <= IO_SIZE ->
   HttpSendBuffer.IsFull b = negb (HttpSendBuffer.HasRoom 0 b)).
Proof.
  intros Hwf. split.
  - unfold HttpSendBuffer.IsFull. intros Hfull n Hn.
    apply Z.eqb_eq in Hfull. rewrite (HasRoom_32 b n Hwf Hn).
    unfold in_unsigned in Hn. apply Z.ltb_ge. lia.
  - intros Hle. rewrite (HasRoom_32 b 0 Hwf) by (unfold in_unsigned; lia).
    unfold HttpSendBuffer.IsFull.
    destruct (Z.eqb_spec (HttpSendBuffer.Length b) IO_SIZE) as [E|E];
      destruct (Z.ltb_spec (HttpSendBuffer.Length b + 0) IO_SIZE); cbn [negb];
      first [reflexivity | lia].
Qed.

Lemma X1_witness :
  HttpSendBuffer.IsFull HttpSendBuffer.ctor
  = negb (HttpSendBuffer.HasRoom 0 HttpSendBuffer.ctor).
Proof.
  apply (proj2 (X1_IsFull_is_no_room_for_zero HttpSendBuffer.ctor well_formed_ctor)).
  change (HttpSendBuffer.Length HttpSendBuffer.ctor) with 0. unfold IO_SIZE. lia.
Defined.

(** X2.  As long as the sum does not wrap around, room for [n] bytes is
    room for every smaller number of bytes. *)
Theorem X2_HasRoom_smaller_size (b : HttpSendBuffer) (m n : Z) :
  HttpSendBuffer.well_formed b -> in_unsigned 64 n ->
  HttpSendBuffer.Length b + n < 2 ^ 64 -> 0 <= m <= n ->
  HttpSendBuffer.HasRoom n b = true -> HttpSendBuffer.HasRoom m b = true.
Proof.
  intros (Hl & _) Hn Hs Hm Hroom. unfold in_unsigned in *.
  apply HasRoom_exact in Hroom; [|lia..].
  apply HasRoom_exact; lia.
Qed.

Lemma X2_witness : HttpSendBuffer.HasRoom 10 HttpSendBuffer.ctor = true.
Proof.
  apply (X2_HasRoom_smaller_size HttpSendBuffer.ctor 10 65535 well_formed_ctor).
  - unfold in_unsigned; lia.
  - change (HttpSendBuffer.Length HttpSendBuffer.ctor) with 0; lia.
  - lia.
  - reflexivity.
Defined.

(** X3.  A buffer that is only written to after [HasRoom] said yes is never
    full: its length stays at most 65535, [IsFull] answers no and there is
    always room for zero bytes. *)
Theorem X3_checked_writes_never_fill (b : HttpSendBuffer) :
  HttpSendBuffer.reachable b ->
  HttpSendBuffer.Length b <= 65535 /\
  HttpSendBuffer.IsFull b = false /\
  HttpSendBuffer.HasRoom 0 b = true.
Proof.
  intros Hb. destruct (reachable_well_formed b Hb) as [Hwf Hlt].
  pose proof Hwf as (Hl & _). unfold in_unsigned in Hl.
  split; [unfold IO_SIZE in Hlt; lia|]. split.
  - unfold HttpSendBuffer.IsFull. apply Z.eqb_neq. lia.
  - rewrite (HasRoom_32 b 0 Hwf) by (unfold in_unsigned; lia). apply Z.ltb_lt. lia.
Qed.

Lemma X3_witness :
  HttpSendBuffer.IsFull (HttpSendBuffer.Reset HttpSendBuffer.ctor) = false.
Proof.
  exact (proj1 (proj2 (X3_checked_writes_never_fill _
           (HttpSendBuffer.reach_Reset _ HttpSendBuffer.reach_ctor)))).
Defined.

(** X4.  The last byte of the array can only be reached without the check.
    For the number of bytes that exactly fills the buffer [HasRoom] says no,
    yet [Write] of that many bytes is defined; afterwards the buffer is full,
    has no room for any size, and a [Write] of one more byte runs past the
    end of the array. *)
Theorem X4_Write_to_capacity (b : HttpSendBuffer) (Buffer : list Byte.byte) :
  HttpSendBuffer.well_formed b ->
  HttpSendBuffer.Length b <= IO_SIZE ->
  IO_SIZE - HttpSendBuffer.Length b <= Z.of_nat (length Buffer) ->
  HttpSendBuffer.HasRoom (IO_SIZE - HttpSendBuffer.Length b) b = false /\
  exists b',
    HttpSendBuffer.Write Buffer (IO_SIZE - HttpSendBuffer.Length b) b = Some b' /\
    HttpSendBuffer.well_formed b' /\
    HttpSendBuffer.Length b' = IO_SIZE /\
    HttpSendBuffer.IsFull b' = true /\
    (forall n, in_unsigned 32 n -> HttpSendBuffer.HasRoom n b' = false) /\
    (forall Buffer' n, 0 < n -> HttpSendBuffer.Write Buffer' n b' = None).
Proof.
  intros Hwf Hle Hsrc. pose proof Hwf as (Hl & Hp & Hr). unfold in_unsigned in Hl.
  set (n := IO_SIZE - HttpSendBuffer.Length b) in *.
  assert (Hn : in_unsigned 32 n) by (unfold in_unsigned, n, IO_SIZE in *; lia).
  split.
  - rewrite (HasRoom_32 b n Hwf Hn). apply Z.ltb_ge. unfold n. lia.
  - destruct (proj2 (Write_defined b Buffer n Hwf (proj1 Hn) Hsrc)) as [b' Hw];
      [unfold n, IO_SIZE; lia|].
    exists b'. split; [exact Hw|].
    assert (Hshape : HttpSendBuffer.Length b' = IO_SIZE /\ HttpSendBuffer.well_formed b').
    { unfold HttpSendBuffer.Write in Hw.
      destruct (memcpy _ _ _ _) as [raw|] eqn:E; [|discriminate].
      injection Hw as <-. apply memcpy_length in E.
      unfold HttpSendBuffer.well_formed, HttpSendBuffer.Length, in_unsigned.
      cbn [QuicBuffer RawBuffer QUIC_BUFFER.Length QUIC_BUFFER.Buffer].
      fold (HttpSendBuffer.Length b). unfold uint32.
      rewrite (wrap_small 32) by (unfold n, IO_SIZE; lia).
      rewrite E. unfold n, IO_SIZE in *. lia. }
    destruct Hshape as [Hlen Hwf']. split; [exact Hwf'|]. split; [exact Hlen|].
    assert (Hfull : HttpSendBuffer.IsFull b' = true)
      by (unfold HttpSendBuffer.IsFull; apply Z.eqb_eq; exact Hlen).
    split; [exact Hfull|]. split.
    + intros m Hm. rewrite (HasRoom_32 b' m Hwf' Hm). unfold in_unsigned in Hm.
      apply Z.ltb_ge. lia.
    + intros Buffer' m Hm. unfold HttpSendBuffer.Write.
      destruct Hwf' as (_ & Hp' & Hr'). rewrite Hp', memcpy_None; [reflexivity|]. lia.
Qed.

Lemma X4_witness :
  HttpSendBuffer.HasRoom 65536 HttpSendBuffer.ctor = false /\
  exists b',
    HttpSendBuffer.Write (replicate (Z.to_nat 65536) Byte.x00) 65536 HttpSendBuffer.ctor
    = Some b' /\
    HttpSendBuffer.IsFull b' = true.
Proof.
  destruct (X4_Write_to_capacity HttpSendBuffer.ctor
              (replicate (Z.to_nat 65536) Byte.x00) well_formed_ctor
              ltac:(change (HttpSendBuffer.Length HttpSendBuffer.ctor) with 0;
                    unfold IO_SIZE; lia)
              ltac:(rewrite length_replicate;
                    change (HttpSendBuffer.Length HttpSendBuffer.ctor) with 0;
                    unfold IO_SIZE; lia))
    as (Hroom & b' & Hw & _ & _ & Hfull & _).
  split; [exact Hroom|]. exists b'. split; [exact Hw | exact Hfull].
Defined.

(** X5.  A [Write] of zero bytes changes nothing, whatever the source, as
    long as the length is within the array. *)
Theorem X5_Write_zero_bytes (b : HttpSendBuffer) (Buffer : list Byte.byte) :
  HttpSendBuffer.well_formed b -> HttpSendBuffer.Length b <= IO_SIZE ->
  HttpSendBuffer.Write Buffer 0 b = Some b.
Proof.
  intros (Hl & Hp & Hr) Hle. unfold in_unsigned in Hl.
  unfold HttpSendBuffer.Write. rewrite Hp, memcpy_Some by lia.
  cbn [mbind option_bind]. f_equal.
  destruct b as [flags [len buf] raw].
  unfold HttpSendBuffer.Length in *.
  cbn [Flags QuicBuffer RawBuffer QUIC_BUFFER.Length QUIC_BUFFER.Buffer] in *.
  unfold uint32. rewrite (wrap_small 32) by lia.
  rewrite !Z.add_0_r, Z.add_0_l. subst buf.
  change (Z.to_nat 0) with 0%nat. rewrite take_0, fmap_nil, app_nil_l, take_drop.
  reflexivity.
Qed.

Lemma X5_witness :
  HttpSendBuffer.Write [Byte.x47] 0 HttpSendBuffer.ctor = Some HttpSendBuffer.ctor.
Proof.
  apply (X5_Write_zero_bytes HttpSendBuffer.ctor [Byte.x47] well_formed_ctor).
  change (HttpSendBuffer.Length HttpSendBuffer.ctor) with 0. unfold IO_SIZE. lia.
Defined.

(** One checked write: it goes through exactly when the chunk leaves the
    buffer below its capacity, and then appends the chunk to the contents. *)
Lemma checked_Write_spec b chunk :
  HttpSendBuffer.well_formed b -> Z.of_nat (length chunk) < 2 ^ 32 ->
  (HttpSendBuffer.Length b + Z.of_nat (length chunk) < IO_SIZE ->
   exists b', checked_Write chunk b = Some b' /\
              HttpSendBuffer.well_formed b' /\
              HttpSendBuffer.Length b' = HttpSendBuffer.Length b + Z.of_nat (length chunk) /\
              contents b' = contents b ++ (Some <$> chunk) /\
              Flags b' = Flags b) /\
  (IO_SIZE <= HttpSendBuffer.Length b + Z.of_nat (length chunk) ->
   checked_Write chunk b = None).
Proof.
  intros Hwf Hc. pose proof Hwf as (Hl & Hp & Hr). unfold in_unsigned in Hl.
  assert (Hn : in_unsigned 32 (Z.of_nat (length chunk))) by (unfold in_unsigned; lia).
  unfold checked_Write. cbv zeta. rewrite (HasRoom_32 b _ Hwf Hn). split.
  - intros Hfit. rewrite (proj2 (Z.ltb_lt _ _) Hfit).
    assert (Hroom : HttpSendBuffer.HasRoom (Z.of_nat (length chunk)) b = true)
      by (rewrite (HasRoom_32 b _ Hwf Hn); apply Z.ltb_lt; exact Hfit).
    destruct (Write_after_HasRoom b chunk _ Hwf Hn ltac:(lia) Hroom)
      as (b' & Hw & Hlen & _ & Hwf').
    exists b'. split; [exact Hw|]. split; [exact Hwf'|]. split; [exact Hlen|].
    unfold contents. rewrite Hlen.
    unfold HttpSendBuffer.Write in Hw. rewrite Hp, Z.add_0_l in Hw.
    rewrite memcpy_Some in Hw by lia. injection Hw as <-.
    cbn [RawBuffer Flags]. split; [|reflexivity].
    rewrite Nat2Z.id, (take_ge chunk) by lia.
    rewrite app_assoc. apply take_app_length'.
    rewrite length_app, length_fmap, length_take. lia.
  - intros Hfull. rewrite (proj2 (Z.ltb_ge _ _) Hfull). reflexivity.
Qed.

(** X6.  Chunks written one after the other, each after its [HasRoom]
    check, all go through exactly when their total leaves the length below
    the capacity.  The buffer then holds what it held followed by the chunks
    in order, and its length grew by their total; otherwise one of the
    checks says no. *)
Theorem X6_checked_Writes_append (chunks : list (list Byte.byte)) :
  forall b : HttpSendBuffer,
    HttpSendBuffer.well_formed b ->
    Forall (fun chunk => Z.of_nat (length chunk) < 2 ^ 32) chunks ->
    (HttpSendBuffer.Length b + Z.of_nat (length (concat chunks)) < IO_SIZE ->
     exists b', checked_Writes chunks b = Some b' /\
                HttpSendBuffer.well_formed b' /\
                HttpSendBuffer.Length b' =
                  HttpSendBuffer.Length b + Z.of_nat (length (concat chunks)) /\
                contents b' = contents b ++ (Some <$> concat chunks) /\
                Flags b' = Flags b) /\
    (IO_SIZE <= HttpSendBuffer.Length b + Z.of_nat (length (concat chunks)) ->
     chunks <> [] -> checked_Writes chunks b = None).
Proof.
  induction chunks as [|chunk rest IH]; intros b Hwf Hall.
  - split; [|intros _ Hne; contradiction].
    intros _. exists b. cbn [checked_Writes concat length fmap list_fmap].
    rewrite Z.add_0_r, app_nil_r.
    split; [reflexivity|]. split; [exact Hwf|]. repeat split; reflexivity.
  - apply Forall_cons in Hall as [Hc Hrest].
    cbn [checked_Writes concat]. rewrite length_app, Nat2Z.inj_add, fmap_app.
    destruct (checked_Write_spec b chunk Hwf Hc) as [Hok Hno]. split.
    + intros Hfit.
      destruct (Hok ltac:(lia)) as (b1 & Hw1 & Hwf1 & Hlen1 & Hcont1 & Hfl1).
      rewrite Hw1. cbn [mbind option_bind].
      destruct (proj1 (IH b1 Hwf1 Hrest) ltac:(lia))
        as (b' & Hw' & Hwf' & Hlen' & Hcont' & Hfl').
      exists b'. split; [exact Hw'|]. split; [exact Hwf'|].
      split; [lia|]. split; [|congruence].
      rewrite Hcont', Hcont1, app_assoc. reflexivity.
    + intros Hfull _.
      destruct (Z.lt_ge_cases (HttpSendBuffer.Length b + Z.of_nat (length chunk)) IO_SIZE)
        as [Hfit|Hnofit]; [|rewrite (Hno Hnofit); reflexivity].
      destruct (Hok Hfit) as (b1 & Hw1 & Hwf1 & Hlen1 & _).
      rewrite Hw1. cbn [mbind option_bind].
      apply (proj2 (IH b1 Hwf1 Hrest)); [lia|].
      intros ->. cbn [concat length] in Hfull. lia.
Qed.

Lemma X6_witness :
  exists b',
    checked_Writes [[Byte.x47; Byte.x45]; [Byte.x54]] HttpSendBuffer.ctor = Some b' /\
    HttpSendBuffer.Length b' = 3 /\
    contents b' = [Some Byte.x47; Some Byte.x45; Some Byte.x54].
Proof.
  destruct (proj1 (X6_checked_Writes_append [[Byte.x47; Byte.x45]; [Byte.x54]]
                     HttpSendBuffer.ctor well_formed_ctor
                     ltac:(repeat constructor; cbn [length]; lia))
              ltac:(change (HttpSendBuffer.Length HttpSendBuffer.ctor) with 0;
                    cbn [concat app length]; unfold IO_SIZE; lia))
    as (b' & Hw & _ & Hlen & Hcont & _).
  exists b'. split; [exact Hw|]. split; [exact Hlen | exact Hcont].
Defined.

(** X7.  [Reset] only sets the length to zero: the bytes of the array and
    the flags stay.  After it the buffer is empty and not full, and
    [HasRoom] is exact for every [uint64_t] size, since from length zero
    the sum cannot wrap: there is room for [n] if and only if [n < 65536]. *)
Theorem X7_Reset_restores_room (b : HttpSendBuffer) (n : Z) :
  in_unsigned 64 n ->
  RawBuffer (HttpSendBuffer.Reset b) = RawBuffer b /\
  Flags (HttpSendBuffer.Reset b) = Flags b /\
  contents (HttpSendBuffer.Reset b) = [] /\
  HttpSendBuffer.IsFull (HttpSendBuffer.Reset b) = false /\
  HttpSendBuffer.Reset (HttpSendBuffer.Reset b) = HttpSendBuffer.Reset b /\
  (HttpSendBuffer.HasRoom n (HttpSendBuffer.Reset b) = true <-> n < 65536).
Proof.
  intros Hn. unfold in_unsigned in Hn.
  split; [reflexivity|]. split; [reflexivity|]. split; [reflexivity|].
  split; [reflexivity|]. split; [reflexivity|].
  rewrite HasRoom_uint64.
  change (HttpSendBuffer.Length (HttpSendBuffer.Reset b)) with 0.
  rewrite Z.add_0_r, Z.mod_small by lia. unfold IO_SIZE. lia.
Qed.

Lemma X7_witness :
  HttpSendBuffer.HasRoom (2 ^ 64 - 1) (HttpSendBuffer.Reset HttpSendBuffer.ctor) = true
  <-> 2 ^ 64 - 1 < 65536.
Proof.
  apply (X7_Reset_restores_room HttpSendBuffer.ctor (2 ^ 64 - 1)).
  unfold in_unsigned. lia.
Defined.

(** * Further properties of the reference count *)

Lemma heap_of_load_connection this w c :
  load_connection this w = Some c -> heap w !! this = Some (ObjConnection c).
Proof.
  unfold load_connection. destruct (heap w !! this) as [[| |]|]; congruence.
Qed.

Lemma set_RefCount_same c : HttpConnection.set_RefCount (RefCount c) c = c.
Proof. destruct c; reflexivity. Qed.

Lemma store_same this c w :
  load_connection this w = Some c -> store this (ObjConnection c) w = w.
Proof.
  intros Hc. destruct w as [cs out h]. unfold store. cbn [calls stdout heap] in *.
  f_equal. apply insert_id. exact (heap_of_load_connection this _ c Hc).
Qed.

Lemma store_store this o1 o2 w : store this o2 (store this o1 w) = store this o2 w.
Proof. unfold store. cbn [calls stdout heap]. f_equal. apply insert_insert_eq. Qed.

Lemma run_RefOps_app `{Platform} this ops1 ops2 w :
  HttpConnection.run_RefOps this (ops1 ++ ops2) w
  = HttpConnection.run_RefOps this ops1 w ≫= HttpConnection.run_RefOps this ops2.
Proof.
  revert w. induction ops1 as [|op rest IH]; intros w; cbn [app HttpConnection.run_RefOps].
  - reflexivity.
  - destruct (HttpConnection.apply_RefOp this op w) as [w1|]; cbn [mbind option_bind];
      [apply IH | reflexivity].
Qed.

Lemma balance_cons start op rest :
  balance start (op :: rest)
  = balance (start + (if HttpConnection.is_OpAddRef op then 1 else -1)) rest.
Proof. unfold balance. cbn [HttpConnection.count_ops]. destruct op; cbn; lia. Qed.

(** X8.  On a live connection whose count is not zero, [AddRef] followed by
    [Release] gives back the very same world: same heap, nothing logged.
    The other order is not safe: at count one [Release] destroys the
    connection and the [AddRef] after it is a use after [delete]. *)
Theorem X8_AddRef_then_Release_is_identity `{Platform}
    (this : ptr) (w : World) (c : HttpConnection) :
  load_connection this w = Some c ->
  in_signed long_bits (RefCount c) -> RefCount c <> 0 ->
  (HttpConnection.AddRef this w ≫= HttpConnection.Release this) = Some w /\
  (RefCount c = 1 ->
   (HttpConnection.Release this w ≫= HttpConnection.AddRef this) = None).
Proof.
  intros Hc Hrange Hnz. pose proof long_bits_pos as Hb. split.
  - rewrite (AddRef_live this w c Hc). cbn [mbind option_bind].
    assert (Hback : HttpConnection.InterlockedDecrement
                      (HttpConnection.InterlockedIncrement (RefCount c)) = RefCount c).
    { unfold HttpConnection.InterlockedDecrement, HttpConnection.InterlockedIncrement.
      replace (wrap_signed long_bits (RefCount c + 1) - 1)
        with (wrap_signed long_bits (RefCount c + 1) + -1) by lia.
      rewrite wrap_signed_add_l by lia.
      replace (RefCount c + 1 + -1) with (RefCount c) by lia.
      apply wrap_signed_small; [lia | exact Hrange]. }
    rewrite (Release_live_nonzero this _ _ (load_connection_store this _ w))
      by (cbn [HttpConnection.set_RefCount RefCount]; rewrite Hback; exact Hnz).
    cbn [HttpConnection.set_RefCount RefCount QuicConnection]. rewrite Hback.
    rewrite store_store. f_equal.
    rewrite <- (store_same this c w Hc) at 2. destruct c; reflexivity.
  - intros Hone.
    rewrite (Release_live_zero this w c Hc)
      by (apply decrement_zero_iff; [lia | exact Hrange | exact Hone]).
    cbn [mbind option_bind]. unfold HttpConnection.AddRef.
    rewrite load_connection_free. reflexivity.
Qed.

Lemma X8_witness :
  (@HttpConnection.AddRef Windows_x64 1%positive example_connection_world
     ≫= @HttpConnection.Release Windows_x64 1%positive)
  = Some example_connection_world.
Proof.
  apply (@X8_AddRef_then_Release_is_identity Windows_x64 1%positive
           example_connection_world _ load_example_connection).
  - unfold in_signed; cbn; lia.
  - cbn; lia.
Defined.

(** The calls of a run in which the count stays positive and does not
    overflow. *)
Lemma run_RefOps_positive `{Platform} this ops :
  forall w c,
    load_connection this w = Some c ->
    (forall k, (k <= length ops)%nat ->
               0 < balance (RefCount c) (take k ops) < 2 ^ (long_bits - 1)) ->
    HttpConnection.run_RefOps this ops w
    = Some (store this
              (ObjConnection (HttpConnection.set_RefCount (balance (RefCount c) ops) c)) w).
Proof.
  pose proof long_bits_pos as Hb.
  induction ops as [|op rest IH]; intros w c Hc Hbal.
  - cbn [HttpConnection.run_RefOps]. unfold balance. cbn [HttpConnection.count_ops].
    replace (RefCount c + 0 - 0) with (RefCount c) by lia.
    rewrite set_RefCount_same, (store_same this c w Hc). reflexivity.
  - pose proof (Hbal 0%nat ltac:(lia)) as H0.
    pose proof (Hbal 1%nat ltac:(cbn [length]; lia)) as H1.
    change (take 0 (op :: rest)) with (@nil HttpConnection.RefOp) in H0.
    change (take 1 (op :: rest)) with [op] in H1. rewrite balance_cons in H1.
    unfold balance in H0, H1. cbn [HttpConnection.count_ops] in H0, H1.
    set (d := if HttpConnection.is_OpAddRef op then 1 else -1) in *.
    assert (Hstep : HttpConnection.apply_RefOp this op w
                    = Some (store this (ObjConnection
                              (HttpConnection.set_RefCount (RefCount c + d) c)) w)).
    { assert (Hsmall : wrap_signed long_bits (RefCount c + d) = RefCount c + d)
        by (apply wrap_signed_small; [lia | unfold in_signed; lia]).
      destruct op; cbn [HttpConnection.apply_RefOp].
      - rewrite (AddRef_live this w c Hc). unfold HttpConnection.InterlockedIncrement.
        subst d. cbn [HttpConnection.is_OpAddRef] in *. rewrite Hsmall. reflexivity.
      - assert (Hdec : HttpConnection.InterlockedDecrement (RefCount c) = RefCount c + d).
        { unfold HttpConnection.InterlockedDecrement. subst d.
          cbn [HttpConnection.is_OpAddRef] in *. rewrite <- Z.add_opp_r. exact Hsmall. }
        rewrite (Release_live_nonzero this w c Hc) by (rewrite Hdec; lia).
        rewrite Hdec. reflexivity. }
    cbn [HttpConnection.run_RefOps]. rewrite Hstep. cbn [mbind option_bind].
    rewrite (IH _ _ (load_connection_store this _ w)).
    + rewrite store_store, balance_cons. reflexivity.
    + intros k Hk. specialize (Hbal (S k) ltac:(cbn [length]; lia)).
      change (take (S k) (op :: rest)) with (op :: take k rest) in Hbal.
      rewrite balance_cons in Hbal. exact Hbal.
Qed.

(** X9.  As long as the releases never catch up with the references (the
    running count stays positive, and below the largest [long]), a run of
    [AddRef] and [Release] calls is defined, never touches the transport,
    and leaves the connection alive with the exact count: what it had plus
    the calls to [AddRef] minus the calls to [Release]. *)
Theorem X9_positive_balance_keeps_alive `{Platform}
    (this : ptr) (ops : list HttpConnection.RefOp) (w : World) (c : HttpConnection) :
  load_connection this w = Some c ->
  (forall k, (k <= length ops)%nat ->
             0 < balance (RefCount c) (take k ops) < 2 ^ (long_bits - 1)) ->
  exists w',
    HttpConnection.run_RefOps this ops w = Some w' /\
    load_connection this w' =
      Some {| QuicConnection := QuicConnection c;
              RefCount := RefCount c
                          + HttpConnection.count_ops HttpConnection.is_OpAddRef ops
                          - HttpConnection.count_ops HttpConnection.is_OpRelease ops |} /\
    calls w' = calls w /\
    stdout w' = stdout w /\
    (forall p, p <> this -> heap w' !! p = heap w !! p).
Proof.
  intros Hc Hbal. eexists. split; [apply (run_RefOps_positive this ops w c Hc Hbal)|].
  split; [apply load_connection_store|]. split; [reflexivity|]. split; [reflexivity|].
  intros p Hp. cbn [store heap]. apply lookup_insert_ne. congruence.
Qed.

Lemma X9_witness :
  exists w',
    @HttpConnection.run_RefOps Linux_x64 1%positive
      [HttpConnection.OpRelease; HttpConnection.OpAddRef; HttpConnection.OpRelease;
       HttpConnection.OpRelease] example_connection_world = Some w' /\
    load_connection 1%positive w' = Some {| QuicConnection := 5; RefCount := 1 |}.
Proof.
  destruct (@X9_positive_balance_keeps_alive Linux_x64 1%positive
              [HttpConnection.OpRelease; HttpConnection.OpAddRef;
               HttpConnection.OpRelease; HttpConnection.OpRelease]
              example_connection_world _ load_example_connection)
    as (w' & Hrun & Hload & _).
  - intros k Hk. cbn [length] in Hk.
    destruct k as [|[|[|[|[|k]]]]]; [vm_compute; split; reflexivity ..| lia].
  - exists w'. split; [exact Hrun | exact Hload].
Defined.

(** X10.  The whole life of a connection.  Created by [new], used by a run
    of calls that keeps the count positive and ends at count one, and then
    released: the run is defined, the heap is what it was before the
    connection was created, and the transport saw two calls for it, the
    registration of the handler and one [ConnectionClose] on its handle. *)
Theorem X10_created_then_released_leaves_no_trace `{Platform}
    (connection : HQUIC) (w0 : World) (ops : list HttpConnection.RefOp) :
  (forall k, (k <= length ops)%nat ->
             0 < balance 1 (take k ops) < 2 ^ (long_bits - 1)) ->
  balance 1 ops = 1 ->
  exists w',
    HttpConnection.run_RefOps (HttpConnection.new connection w0).1
      (ops ++ [HttpConnection.OpRelease]) (HttpConnection.new connection w0).2
    = Some w' /\
    heap w' = heap w0 /\
    stdout w' = stdout w0 /\
    calls w' = calls w0 ++
      [SetCallbackHandler connection HttpConnection_QuicCallbackHandler
         (HttpConnection.new connection w0).1;
       ConnectionClose connection].
Proof.
  intros Hbal Hone. pose proof long_bits_pos as Hb.
  pose proof (load_connection_new connection w0) as Hnew.
  set (this := (HttpConnection.new connection w0).1) in *.
  set (w1 := (HttpConnection.new connection w0).2) in *.
  rewrite run_RefOps_app, (run_RefOps_positive this ops w1 _ Hnew Hbal).
  cbn [mbind option_bind RefCount]. rewrite Hone.
  cbn [HttpConnection.run_RefOps HttpConnection.apply_RefOp].
  rewrite (Release_live_zero this _ _ (load_connection_store this _ w1)).
  2:{ cbn [HttpConnection.set_RefCount RefCount].
      apply decrement_zero_iff; [lia | apply one_in_long | reflexivity]. }
  cbn [mbind option_bind]. eexists. split; [reflexivity|].
  split; [|split; [reflexivity|]].
  - unfold w1, HttpConnection.new. cbn [snd free MsQuic store heap HttpConnection.ctor].
    rewrite !delete_insert_eq. apply delete_id. apply operator_new_fresh.
  - unfold w1, this, HttpConnection.new.
    cbn [fst snd free MsQuic store calls HttpConnection.ctor HttpConnection.set_RefCount
         QuicConnection].
    rewrite <- app_assoc. reflexivity.
Qed.

Lemma X10_witness :
  exists w',
    @HttpConnection.run_RefOps Windows_x64 (HttpConnection.new 5 empty_world).1
      ([HttpConnection.OpAddRef; HttpConnection.OpRelease] ++ [HttpConnection.OpRelease])
      (HttpConnection.new 5 empty_world).2 = Some w' /\
    heap w' = ∅.
Proof.
  destruct (@X10_created_then_released_leaves_no_trace Windows_x64 5 empty_world
              [HttpConnection.OpAddRef; HttpConnection.OpRelease])
    as (w' & Hrun & Hheap & _).
  - intros k Hk. cbn [length] in Hk.
    destruct k as [|[|[|k]]]; [vm_compute; split; reflexivity ..| lia].
  - reflexivity.
  - exists w'. split; [exact Hrun | exact Hheap].
Defined.

(** * Further properties of the handlers *)

Lemma deliver_app `{Platform} Connection_ Context evs1 evs2 w :
  deliver Connection_ Context (evs1 ++ evs2) w
  = deliver Connection_ Context evs1 w ≫= deliver Connection_ Context evs2.
Proof.
  revert w. induction evs1 as [|e rest IH]; intros w; cbn [app deliver].
  - reflexivity.
  - destruct (HttpConnection.QuicCallbackHandler Connection_ Context e w) as [r|];
      cbn [mbind option_bind]; [apply IH | reflexivity].
Qed.

(** Quiet events on a live connection: a ticket for each connected event,
    nothing else. *)
Lemma deliver_quiet `{Platform} Connection_ pThis evs :
  forall w c,
    load_connection pThis w = Some c ->
    Forall (fun e => is_quiet e = true) evs ->
    exists w', deliver Connection_ pThis evs w = Some w' /\
               calls w' = calls w ++ tickets (QuicConnection c) evs /\
               stdout w' = stdout w /\ heap w' = heap w.
Proof.
  induction evs as [|e rest IH]; intros w c Hc Hq.
  - exists w. cbn [deliver tickets flat_map]. rewrite app_nil_r. repeat split.
  - apply Forall_cons in Hq as [He Hrest]. cbn [deliver tickets flat_map].
    destruct e as [| | |ty]; try discriminate He;
      cbn [HttpConnection.QuicCallbackHandler].
    + rewrite Hc. cbn [mbind option_bind snd].
      destruct (IH (MsQuic (ConnectionSendResumptionTicket (QuicConnection c)
                              QUIC_SEND_RESUMPTION_FLAG_FINAL 0 None) w) c Hc Hrest)
        as (w' & Hrun & Hcalls & Hout & Hheap).
      exists w'. split; [exact Hrun|]. split; [|split; assumption].
      rewrite Hcalls. cbn [MsQuic calls]. rewrite <- app_assoc. reflexivity.
    + cbn [mbind option_bind snd].
      destruct (IH w c Hc Hrest) as (w' & Hrun & Hcalls & Hout & Hheap).
      exists w'. repeat split; assumption.
Qed.

Lemma load_connection_heap_eq p w w' :
  heap w' = heap w -> load_connection p w' = load_connection p w.
Proof. unfold load_connection. intros ->. reflexivity. Qed.

(** What the shutdown-complete event does to a live connection. *)
Lemma shutdown_complete_run `{Platform} Connection_ pThis w c :
  load_connection pThis w = Some c -> in_signed long_bits (RefCount c) ->
  exists w',
    deliver Connection_ pThis [QUIC_CONNECTION_EVENT_SHUTDOWN_COMPLETE] w = Some w' /\
    stdout w' = stdout w /\
    if RefCount c =? 1
    then heap w' = delete pThis (heap w) /\
         calls w' = calls w ++ [ConnectionClose (QuicConnection c)]
    else load_connection pThis w' =
           Some (HttpConnection.set_RefCount
                   (HttpConnection.InterlockedDecrement (RefCount c)) c) /\
         calls w' = calls w.
Proof.
  intros Hc Hrange. pose proof long_bits_pos as Hb.
  cbn [deliver HttpConnection.QuicCallbackHandler].
  destruct (Z.eqb_spec (RefCount c) 1) as [Hone|Hone].
  - rewrite (Release_live_zero pThis w c Hc)
      by (apply decrement_zero_iff; [lia | exact Hrange | exact Hone]).
    cbn [mbind option_bind snd]. eexists. split; [reflexivity|].
    split; [reflexivity|]. split; [|reflexivity].
    cbn [free MsQuic store heap]. apply delete_insert_eq.
  - rewrite (Release_live_nonzero pThis w c Hc)
      by (intros E; apply Hone; apply (decrement_zero_iff long_bits); [lia | exact Hrange | exact E]).
    cbn [mbind option_bind snd]. eexists. split; [reflexivity|].
    split; [reflexivity|]. split; [apply load_connection_store | reflexivity].
Qed.

(** X11.  The handler of a live connection after any number of connected
    and unknown events, then the shutdown-complete event: every event is
    answered and one resumption ticket is sent per connected event.  If the
    count was one the connection is then deleted, its handle is closed once,
    and a further connected or shutdown-complete event for it is a use after
    [delete]; otherwise it stays alive with the count decremented and its
    handle is not closed. *)
Theorem X11_events_until_shutdown_complete `{Platform}
    (Connection_ : HQUIC) (pThis : ptr) (evs : list QUIC_CONNECTION_EVENT)
    (w : World) (c : HttpConnection) :
  load_connection pThis w = Some c ->
  in_signed long_bits (RefCount c) ->
  Forall (fun e => is_quiet e = true) evs ->
  exists w',
    deliver Connection_ pThis (evs ++ [QUIC_CONNECTION_EVENT_SHUTDOWN_COMPLETE]) w
    = Some w' /\
    stdout w' = stdout w /\
    if RefCount c =? 1
    then heap w' = delete pThis (heap w) /\
         calls w' = calls w ++ tickets (QuicConnection c) evs
                            ++ [ConnectionClose (QuicConnection c)] /\
         HttpConnection.QuicCallbackHandler Connection_ pThis
           QUIC_CONNECTION_EVENT_CONNECTED w' = None /\
         HttpConnection.QuicCallbackHandler Connection_ pThis
           QUIC_CONNECTION_EVENT_SHUTDOWN_COMPLETE w' = None
    else load_connection pThis w' =
           Some (HttpConnection.set_RefCount
                   (HttpConnection.InterlockedDecrement (RefCount c)) c) /\
         calls w' = calls w ++ tickets (QuicConnection c) evs.
Proof.
  intros Hc Hrange Hq.
  destruct (deliver_quiet Connection_ pThis evs w c Hc Hq)
    as (w1 & Hrun1 & Hcalls1 & Hout1 & Hheap1).
  assert (Hc1 : load_connection pThis w1 = Some c)
    by (rewrite (load_connection_heap_eq pThis w w1 Hheap1); exact Hc).
  destruct (shutdown_complete_run Connection_ pThis w1 c Hc1 Hrange)
    as (w' & Hrun & Hout & Hcase).
  exists w'. rewrite deliver_app, Hrun1. cbn [mbind option_bind].
  split; [exact Hrun|]. split; [congruence|].
  destruct (RefCount c =? 1).
  - destruct Hcase as [Hheap Hcalls].
    assert (Hdead : load_connection pThis w' = None)
      by (unfold load_connection; rewrite Hheap, lookup_delete_eq; reflexivity).
    split; [congruence|]. split; [rewrite Hcalls, Hcalls1, <- app_assoc; reflexivity|].
    cbn [HttpConnection.QuicCallbackHandler]. unfold HttpConnection.Release.
    rewrite Hdead. split; reflexivity.
  - destruct Hcase as [Hload Hcalls]. split; [exact Hload | congruence].
Qed.

Lemma X11_witness :
  exists w',
    @deliver Windows_x64 5 (HttpConnection.new 5 empty_world).1
      ([QUIC_CONNECTION_EVENT_CONNECTED; QUIC_CONNECTION_EVENT_other 9]
       ++ [QUIC_CONNECTION_EVENT_SHUTDOWN_COMPLETE])
      (HttpConnection.new 5 empty_world).2 = Some w' /\
    stdout w' = [].
Proof.
  destruct (@X11_events_until_shutdown_complete Windows_x64 5
              (HttpConnection.new 5 empty_world).1
              [QUIC_CONNECTION_EVENT_CONNECTED; QUIC_CONNECTION_EVENT_other 9]
              (HttpConnection.new 5 empty_world).2 _
              (load_connection_new 5 empty_world))
    as (w' & Hrun & Hout & _).
  - unfold in_signed; cbn; lia.
  - repeat constructor.
  - exists w'. split; [exact Hrun | exact Hout].
Defined.

(** X12.  The handler of the listener.  For a new-connection event it
    answers success, puts the security configuration into the event and
    creates one connection on the handle of the event, with count one and
    its handler registered with the new object as context; any other event
    is turned down with not-supported and changes nothing.  A connection
    accepted this way that then gets quiet events and the shutdown-complete
    event is deleted again: the heap is what it was before the accept, and
    the handle was closed once. *)
Theorem X12_listener_accepts_and_connection_ends `{Platform}
    (SecurityConfig : Z) (QUIC_STATUS_NOT_SUPPORTED : QUIC_STATUS) (w : World) :
  (forall Type_,
      HttpServer.QuicCallbackHandler SecurityConfig QUIC_STATUS_NOT_SUPPORTED
        (QUIC_LISTENER_EVENT_other Type_) w
      = (QUIC_STATUS_NOT_SUPPORTED, QUIC_LISTENER_EVENT_other Type_, w)) /\
  (forall (connection : HQUIC) (sc : option Z) (evs : list QUIC_CONNECTION_EVENT),
      Forall (fun e => is_quiet e = true) evs ->
      exists w1,
        HttpServer.QuicCallbackHandler SecurityConfig QUIC_STATUS_NOT_SUPPORTED
          (QUIC_LISTENER_EVENT_NEW_CONNECTION connection sc) w
        = (QUIC_STATUS_SUCCESS,
           QUIC_LISTENER_EVENT_NEW_CONNECTION connection (Some SecurityConfig), w1) /\
        heap w !! operator_new w = None /\
        heap w1 = <[operator_new w :=
                      ObjConnection {| QuicConnection := connection; RefCount := 1 |}]>
                    (heap w) /\
        calls w1 = calls w ++
          [SetCallbackHandler connection HttpConnection_QuicCallbackHandler
             (operator_new w)] /\
        exists w',
          deliver connection (operator_new w) (evs ++ [QUIC_CONNECTION_EVENT_SHUTDOWN_COMPLETE]) w1
          = Some w' /\
          heap w' = heap w /\
          calls w' = calls w1 ++ tickets connection evs ++ [ConnectionClose connection]).
Proof.
  split; [reflexivity|].
  intros connection sc evs Hq.
  exists (HttpConnection.new connection w).2.
  split; [reflexivity|]. split; [apply operator_new_fresh|].
  split; [reflexivity|]. split; [reflexivity|].
  pose proof (load_connection_new connection w) as Hnew.
  change (HttpConnection.new connection w).1 with (operator_new w) in Hnew.
  destruct (deliver_quiet connection (operator_new w) evs _ _ Hnew Hq)
    as (w2 & Hrun2 & Hcalls2 & _ & Hheap2).
  assert (Hc2 : load_connection (operator_new w) w2
                = Some {| QuicConnection := connection; RefCount := 1 |})
    by (rewrite (load_connection_heap_eq _ _ w2 Hheap2); exact Hnew).
  destruct (shutdown_complete_run connection (operator_new w) w2 _ Hc2 one_in_long)
    as (w' & Hrun & _ & Hheap & Hcalls).
  exists w'. rewrite deliver_app, Hrun2. cbn [mbind option_bind].
  split; [exact Hrun|]. split.
  - rewrite Hheap, Hheap2. cbn [HttpConnection.new snd store MsQuic heap HttpConnection.ctor].
    apply delete_insert_id, operator_new_fresh.
  - rewrite Hcalls, Hcalls2, <- app_assoc. reflexivity.
Qed.

Lemma X12_witness :
  exists w1 w',
    @HttpServer.QuicCallbackHandler Linux_x64 77 95
      (QUIC_LISTENER_EVENT_NEW_CONNECTION 5 None) empty_world
    = (0, QUIC_LISTENER_EVENT_NEW_CONNECTION 5 (Some 77), w1) /\
    @deliver Linux_x64 5 (operator_new empty_world)
      ([QUIC_CONNECTION_EVENT_CONNECTED] ++ [QUIC_CONNECTION_EVENT_SHUTDOWN_COMPLETE]) w1
    = Some w' /\
    heap w' = ∅.
Proof.
  destruct (proj2 (@X12_listener_accepts_and_connection_ends Linux_x64 77 95 empty_world)
              5 None [QUIC_CONNECTION_EVENT_CONNECTED] ltac:(repeat constructor))
    as (w1 & Hacc & _ & _ & _ & w' & Hrun & Hheap & _).
  exists w1, w'. split; [exact Hacc|]. split; [exact Hrun | exact Hheap].
Defined.

(** * Further properties of start-up, tear-down and abort *)

(** A constructor of the session that returns made all five steps. *)
Lemma HttpSession_ctor_Returned `{Platform}
    (T : Transport) (Registration : HQUIC) (AlpnBuffers : list (list Byte.byte))
    (AlpnBufferCount : Z) (LocalAddress : QUIC_ADDR) (w : World) s w' :
  HttpSession.ctor T Registration AlpnBuffers AlpnBufferCount LocalAddress w
  = Returned s w' ->
  (forall k, (k < 5)%nat ->
     QUIC_FAILED (step_status T w
       (startup_plan T Registration AlpnBuffers AlpnBufferCount LocalAddress w) k) = false) /\
  s = {| Session := opened_session T Registration AlpnBuffers AlpnBufferCount w;
         Server := operator_new w |} /\
  w' = {| calls := calls w ++
            startup_plan T Registration AlpnBuffers AlpnBufferCount LocalAddress w;
          stdout := stdout w;
          heap := <[operator_new w :=
                      ObjServer {| QuicListener :=
                        opened_listener T Registration AlpnBuffers AlpnBufferCount w |}]>
                    (heap w) |}.
Proof.
  rewrite HttpSession_ctor_run. cbv zeta.
  set (plan := startup_plan T Registration AlpnBuffers AlpnBufferCount LocalAddress w).
  destruct (QUIC_FAILED (step_status T w plan 0)) eqn:F0; [discriminate|].
  destruct (QUIC_FAILED (step_status T w plan 1)) eqn:F1; [discriminate|].
  destruct (QUIC_FAILED (step_status T w plan 2)) eqn:F2; [discriminate|].
  destruct (QUIC_FAILED (step_status T w plan 3)) eqn:F3; [discriminate|].
  destruct (QUIC_FAILED (step_status T w plan 4)) eqn:F4; [discriminate|].
  intros [= <- <-]. split; [|split; reflexivity].
  intros k Hk. do 5 (destruct k as [|k]; [assumption|]). lia.
Qed.

(** X13.  The constructor of the session returns if and only if none of the
    five start-up steps fails.  When it returns, nothing was printed, the
    five calls were made in order, and the heap holds one object more: the
    server, at a fresh address that the session keeps, with the listener
    handle the transport handed out. *)
Theorem X13_startup_returns_iff_no_step_fails `{Platform}
    (T : Transport) (Registration : HQUIC) (AlpnBuffers : list (list Byte.byte))
    (AlpnBufferCount : Z) (LocalAddress : QUIC_ADDR) (w : World) :
  let plan := startup_plan T Registration AlpnBuffers AlpnBufferCount LocalAddress w in
  let run := HttpSession.ctor T Registration AlpnBuffers AlpnBufferCount LocalAddress w in
  length plan = 5%nat /\
  ((forall k, (k < 5)%nat -> QUIC_FAILED (step_status T w plan k) = false) <->
   exists s w', run = Returned s w') /\
  (forall s w',
      run = Returned s w' ->
      Session s = opened_session T Registration AlpnBuffers AlpnBufferCount w /\
      heap w !! Server s = None /\
      heap w' = <[Server s :=
                    ObjServer {| QuicListener :=
                      opened_listener T Registration AlpnBuffers AlpnBufferCount w |}]>
                  (heap w) /\
      calls w' = calls w ++ plan /\
      stdout w' = stdout w).
Proof.
  intros plan run. split; [reflexivity|]. split; [split|].
  - intros Hok. unfold run. rewrite HttpSession_ctor_run. cbv zeta. fold plan.
    rewrite !Hok by lia. eexists. eexists. reflexivity.
  - intros (s & w' & Hrun).
    exact (proj1 (HttpSession_ctor_Returned T _ _ _ _ w s w' Hrun)).
  - intros s w' Hrun.
    destruct (HttpSession_ctor_Returned T _ _ _ _ w s w' Hrun) as (_ & -> & ->).
    cbn [Session Server calls stdout heap].
    split; [reflexivity|]. split; [apply operator_new_fresh|]. repeat split.
Qed.

Lemma X13_witness :
  exists s w',
    @HttpSession.ctor Linux_x64 always_succeeds 9 [[Byte.x68; Byte.x71]] 1 0 empty_world
    = Returned s w' /\
    Session s = 42 /\ stdout w' = [] /\ length (calls w') = 5%nat.
Proof.
  pose proof (@X13_startup_returns_iff_no_step_fails Linux_x64 always_succeeds 9
                [[Byte.x68; Byte.x71]] 1 0 empty_world) as (Hlen & Hiff & Hret).
  destruct (proj1 Hiff) as (s & w' & Hrun); [intros k _; reflexivity|].
  destruct (Hret s w' Hrun) as (Hs & _ & _ & Hcalls & Hout).
  exists s, w'. split; [exact Hrun|]. split; [exact Hs|]. split; [exact Hout|].
  rewrite Hcalls. exact Hlen.
Defined.

(** X14.  Tear-down undoes start-up.  On the world a returning constructor
    left, the destructor of the session is defined; it closes the listener
    that start-up opened, then shuts down and closes the session that
    start-up opened, in this order and with no other call; the server is
    deleted, so the heap is what it was before start-up.  Running the
    destructor a second time deletes the server twice. *)
Theorem X14_teardown_undoes_startup `{Platform}
    (T : Transport) (Registration : HQUIC) (AlpnBuffers : list (list Byte.byte))
    (AlpnBufferCount : Z) (LocalAddress : QUIC_ADDR) (w : World)
    (s : HttpSession) (w' : World) :
  HttpSession.ctor T Registration AlpnBuffers AlpnBufferCount LocalAddress w
  = Returned s w' ->
  exists w'',
    HttpSession.dtor s w' =
      Some ([ListenerClose
               (opened_listener T Registration AlpnBuffers AlpnBufferCount w);
             SessionShutdown
               (opened_session T Registration AlpnBuffers AlpnBufferCount w)
               QUIC_CONNECTION_SHUTDOWN_FLAG_NONE 0;
             SessionClose
               (opened_session T Registration AlpnBuffers AlpnBufferCount w)],
            w'') /\
    heap w'' = heap w /\
    stdout w'' = stdout w' /\
    HttpSession.dtor s w'' = None.
Proof.
  intros Hrun.
  destruct (HttpSession_ctor_Returned T _ _ _ _ w s w' Hrun) as (_ & -> & ->).
  unfold HttpSession.dtor, load_server. cbn [Server Session heap].
  rewrite lookup_insert_eq. cbn [mbind option_bind].
  eexists. split; [reflexivity|].
  assert (Hheap : delete (operator_new w)
                    (<[operator_new w :=
                         ObjServer {| QuicListener :=
                           opened_listener T Registration AlpnBuffers AlpnBufferCount w |}]>
                       (heap w)) = heap w)
    by apply delete_insert_id, operator_new_fresh.
  cbn [free heap calls stdout]. split; [exact Hheap|].
  split; [reflexivity|].
  rewrite Hheap, operator_new_fresh. reflexivity.
Qed.

Lemma X14_witness :
  exists s w' w'',
    @HttpSession.ctor Linux_x64 always_succeeds 9 [[Byte.x68; Byte.x71]] 1 0 empty_world
    = Returned s w' /\
    HttpSession.dtor s w' =
      Some ([ListenerClose 42;
             SessionShutdown 42 QUIC_CONNECTION_SHUTDOWN_FLAG_NONE 0;
             SessionClose 42], w'') /\
    heap w'' = ∅.
Proof.
  assert (exists s w',
             @HttpSession.ctor Linux_x64 always_succeeds 9 [[Byte.x68; Byte.x71]] 1 0
               empty_world = Returned s w') as (s & w' & Hrun)
    by (rewrite HttpSession_ctor_run; eexists; eexists; reflexivity).
  destruct (@X14_teardown_undoes_startup Linux_x64 always_succeeds 9
              [[Byte.x68; Byte.x71]] 1 0 empty_world s w' Hrun)
    as (w'' & Hd & Hheap & _).
  exists s, w', w''. split; [exact Hrun|]. split; [exact Hd | exact Hheap].
Defined.

(** X15.  [Abort] invoked any number of times on a live request: every
    invocation is defined and logs its own [StreamShutdown] on the stream of
    the request, in the order of the invocations and with the code of each;
    nothing is printed, and after the first invocation the heap does not
    change any more. *)
Theorem X15_every_Abort_is_submitted
    (this : ptr) (codes : list HttpRequestErrorCodes) :
  forall (w : World) (r : HttpRequest),
    load_request this w = Some r ->
    exists w',
      Aborts this codes w = Some w' /\
      calls w' = calls w ++
        ((fun e => StreamShutdown (QuicStream r) QUIC_STREAM_SHUTDOWN_FLAG_ABORT
                     (ErrorCode_value e)) <$> codes) /\
      stdout w' = stdout w /\
      (codes <> [] -> heap w' = heap (flagged this r w)) /\
      load_request this w' =
        Some (if codes is [] then r else HttpRequest.set_Shutdown true r).
Proof.
  induction codes as [|e rest IH]; intros w r Hr.
  - exists w. cbn [Aborts fmap list_fmap]. rewrite app_nil_r.
    split; [reflexivity|]. split; [reflexivity|]. split; [reflexivity|].
    split; [intros E; contradiction | exact Hr].
  - cbn [Aborts]. rewrite (Abort_run this e w r Hr). cbn [mbind option_bind].
    destruct (IH _ _ (load_request_after_Abort this r e w))
      as (w' & Hrun & Hcalls & Hout & Hheap & Hload).
    exists w'. split; [exact Hrun|].
    split; [rewrite Hcalls; cbn [MsQuic flagged store calls fmap list_fmap];
            rewrite <- app_assoc; reflexivity|].
    split; [exact Hout|]. split.
    + intros _. destruct rest as [|e' rest'].
      * cbn [Aborts] in Hrun. injection Hrun as <-. reflexivity.
      * rewrite (Hheap ltac:(discriminate)).
        cbn [MsQuic flagged store heap]. apply insert_insert_eq.
    + rewrite Hload. destruct rest; reflexivity.
Qed.

Lemma X15_witness :
  exists w',
    Aborts 2%positive [HttpRequestGetTooBig; HttpRequestExtraRecv; HttpRequestNoError]
      example_request_world = Some w' /\
    calls w' = [StreamShutdown 7 QUIC_STREAM_SHUTDOWN_FLAG_ABORT 3;
                StreamShutdown 7 QUIC_STREAM_SHUTDOWN_FLAG_ABORT 7;
                StreamShutdown 7 QUIC_STREAM_SHUTDOWN_FLAG_ABORT 0].
Proof.
  destruct (X15_every_Abort_is_submitted 2%positive
              [HttpRequestGetTooBig; HttpRequestExtraRecv; HttpRequestNoError]
              example_request_world example_request load_example_request)
    as (w' & Hrun & Hcalls & _).
  exists w'. split; [exact Hrun | exact Hcalls].
Defined.

(** X16.  Whatever the transport answers, start-up ends in one of two
    ways.  Either the constructor returns, having printed nothing and made
    all five calls; or it leaves through [exit] with code 1, and then some
    step [k] failed, the calls made are exactly the steps up to [k], one
    diagnostic, that of step [k], was printed, and the heap is untouched. *)
Theorem X16_startup_outcomes `{Platform}
    (T : Transport) (Registration : HQUIC) (AlpnBuffers : list (list Byte.byte))
    (AlpnBufferCount : Z) (LocalAddress : QUIC_ADDR) (w : World) :
  let plan := startup_plan T Registration AlpnBuffers AlpnBufferCount LocalAddress w in
  match HttpSession.ctor T Registration AlpnBuffers AlpnBufferCount LocalAddress w with
  | Returned s w' => stdout w' = stdout w /\ calls w' = calls w ++ plan
  | Exited code w' =>
      code = 1 /\ heap w' = heap w /\
      exists k site,
        startup_sites !! k = Some site /\
        QUIC_FAILED (step_status T w plan k) = true /\
        (forall j, (j < k)%nat -> QUIC_FAILED (step_status T w plan j) = false) /\
        calls w' = calls w ++ take (S k) plan /\
        stdout w' = stdout w ++ [diagnostic site]
  end.
Proof.
  intros plan. rewrite HttpSession_ctor_run. cbv zeta. fold plan.
  destruct (QUIC_FAILED (step_status T w plan 0)) eqn:F0.
  { split; [reflexivity|]. split; [reflexivity|].
    exists 0%nat, Site_SessionOpen. repeat split; try assumption. intros j Hj; lia. }
  destruct (QUIC_FAILED (step_status T w plan 1)) eqn:F1.
  { split; [reflexivity|]. split; [reflexivity|].
    exists 1%nat, Site_SetParam_PeerBidi. repeat split; try assumption.
    intros j Hj. destruct j as [|j]; [assumption | lia]. }
  destruct (QUIC_FAILED (step_status T w plan 2)) eqn:F2.
  { split; [reflexivity|]. split; [reflexivity|].
    exists 2%nat, Site_SetParam_PeerUnidi. repeat split; try assumption.
    intros j Hj. destruct j as [|[|j]]; [assumption | assumption | lia]. }
  destruct (QUIC_FAILED (step_status T w plan 3)) eqn:F3.
  { split; [reflexivity|]. split; [reflexivity|].
    exists 3%nat, Site_ListenerOpen. repeat split; try assumption.
    intros j Hj. destruct j as [|[|[|j]]]; [assumption | assumption | assumption | lia]. }
  destruct (QUIC_FAILED (step_status T w plan 4)) eqn:F4.
  { split; [reflexivity|]. split; [reflexivity|].
    exists 4%nat, Site_ListenerStart. repeat split; try assumption.
    intros j Hj.
    destruct j as [|[|[|[|j]]]]; [assumption | assumption | assumption | assumption | lia]. }
  split; reflexivity.
Qed.

(** X17.  [HasRoom] takes a 64-bit size, [Write] a 32-bit one.  When
    [HasRoom(n)] said yes and [Write] is then called with [n] (cut down to
    32 bits by the parameter), the copy is inside the array exactly when the
    sum in [HasRoom] did not wrap around; in that case [n] is passed
    unchanged, otherwise the [Write] runs past the end of the array. *)
Theorem X17_HasRoom_then_Write_64 (b : HttpSendBuffer)
    (Buffer : list Byte.byte) (n : Z) :
  HttpSendBuffer.well_formed b -> in_unsigned 64 n ->
  uint32 n <= Z.of_nat (length Buffer) ->
  HttpSendBuffer.HasRoom n b = true ->
  (is_Some (HttpSendBuffer.Write Buffer (uint32 n) b)
   <-> HttpSendBuffer.Length b + n < 2 ^ 64) /\
  (HttpSendBuffer.Length b + n < 2 ^ 64 -> uint32 n = n) /\
  (2 ^ 64 <= HttpSendBuffer.Length b + n ->
   HttpSendBuffer.Write Buffer (uint32 n) b = None).
Proof.
  intros Hwf Hn Hsrc Hroom. pose proof Hwf as (Hl & _). unfold in_unsigned in *.
  assert (H32 : 0 <= uint32 n < 2 ^ 32)
    by (unfold uint32, wrap; apply Z.mod_pos_bound; lia).
  assert (Hsmall : HttpSendBuffer.Length b + n < 2 ^ 64 -> uint32 n = n).
  { intros Hs. apply HasRoom_exact in Hroom; [|lia..].
    unfold uint32. apply wrap_small. unfold IO_SIZE in Hroom. lia. }
  assert (Hwrap : 2 ^ 64 <= HttpSendBuffer.Length b + n ->
                  IO_SIZE < HttpSendBuffer.Length b + uint32 n).
  { intros Hw. unfold uint32, wrap.
    replace n with (n - (2 ^ 64 - 2 ^ 32) + (2 ^ 32 - 1) * 2 ^ 32) by lia.
    rewrite Z.mod_add by lia. rewrite Z.mod_small by lia. unfold IO_SIZE. lia. }
  pose proof (Write_defined b Buffer (uint32 n) Hwf (proj1 H32) Hsrc) as Hdef.
  split; [|split; [exact Hsmall|]].
  - split.
    + intros Hsome. apply Hdef in Hsome.
      destruct (Z.lt_ge_cases (HttpSendBuffer.Length b + n) (2 ^ 64)) as [|Hw];
        [assumption | specialize (Hwrap Hw); lia].
    + intros Hs. apply Hdef. rewrite (Hsmall Hs).
      apply HasRoom_exact in Hroom; lia.
  - intros Hw. specialize (Hwrap Hw).
    apply eq_None_not_Some. intros Hs. apply Hdef in Hs. lia.
Qed.

Lemma X17_witness :
  is_Some (HttpSendBuffer.Write [Byte.x47; Byte.x45; Byte.x54] (uint32 3)
             HttpSendBuffer.ctor)
  <-> HttpSendBuffer.Length HttpSendBuffer.ctor + 3 < 2 ^ 64.
Proof.
  apply (X17_HasRoom_then_Write_64 HttpSendBuffer.ctor
           [Byte.x47; Byte.x45; Byte.x54] 3 well_formed_ctor).
  - unfold in_unsigned; lia.
  - change (uint32 3) with 3. cbn [length]. lia.
  - reflexivity.
Defined.
